(** * AlphaPy: the pipeline orchestrator

    A shallow embedding of the two pipeline entry points of the repository,
    [alphapy/__main__.py] (module [Main] below) and [alphapy/alpha.py]
    (module [Alpha] below), and the properties of their control flow.

    The pipelines are orchestration code: they call collaborators of the
    package ([alphapy.data], [alphapy.features], [alphapy.model],
    [alphapy.optimize], [alphapy.plots], [alphapy.estimators]) and thread one
    model object through them.  The collaborators are taken as a record of
    functions ([Collaborators]); what the pipelines do with them is embedded
    statement by statement in a monad that records every log line and every
    collaborator call in order, and that carries Python exceptions. *)

From Stdlib Require Import ZArith Lia.
From stdpp Require Import gmap strings list sorting.


(** ** Tables, as far as the pipelines look at them *)

(** A cell of a table; [None] is NaN. *)
Definition cell : Type := option Z.

(** A pandas frame or a two-dimensional numpy array: column labels and rows. *)
Record Table : Type := mkTable {
  columns : list string;
  rows : list (list cell)
}.

(** [X.shape]: (number of rows, number of columns). *)
Definition shape (X : Table) : nat * nat := (length (rows X), length (columns X)).

Fixpoint assoc (c : string) (l : list (string * cell)) : cell :=
  match l with
  | [] => None
  | (k, v) :: l' => if decide (k = c) then v else assoc c l'
  end.

(** A row laid out over the labels [dst]; a label the row has no value for
    gets NaN. *)
Definition reindex (src dst : list string) (r : list cell) : list cell :=
  map (fun c => assoc c (zip src r)) dst.

(** [pd.concat([a, b])]: along axis 0 with the outer join of the columns;
    the rows of [a] come first, then the rows of [b]. *)
Definition pd_concat (a b : Table) : Table :=
  let cols := columns a ++ filter (fun c : string => c ∉ columns a) (columns b) in
  {| columns := cols;
     rows := map (reindex (columns a) cols) (rows a)
             ++ map (reindex (columns b) cols) (rows b) |}.

(** [np.array_split(a, [k])]: the two pieces [a[:k]] and [a[k:]]. *)
Definition array_split (a : Table) (k : nat) : Table * Table :=
  ({| columns := columns a; rows := take k (rows a) |},
   {| columns := columns a; rows := drop k (rows a) |}).

(** [np.unique(y, return_counts=True)]: the sorted distinct values and how
    often each one occurs. *)
Definition np_unique (y : list Z) : list Z * list nat :=
  let uv := merge_sort Z.le (remove_dups y) in
  (uv, map (fun v => length (filter (fun x => x = v) y)) uv).

(** ** Configuration, estimators and the model object *)

Inductive ModelType : Type := classification | regression.

(** [model_type == ModelType.classification] *)
Definition is_classification (model_type : ModelType) : bool :=
  match model_type with
  | classification => true
  | regression => false
  end.

(** [model.specs]: the resolved configuration, with the keys the pipelines
    read ([specs['scoring']] is set by [main] of [__main__.py] from the
    command line; [alpha.py] reads [specs['scoring_mode']]). *)
Module Specs.
Record t : Type := mk {
  calibration : bool;
  directory : string;
  drop : list string;
  feature_selection : bool;
  grid_search : bool;
  model_type : ModelType;
  rfe : bool;
  sampling : bool;
  scorer : string;
  scoring : bool;
  scoring_mode : bool;
  target : string;
  test_labels : bool
}.
End Specs.

(** The estimator object of the learning library, by name. *)
Inductive Est : Type := SkEstimator (name : string).

(** An entry of the estimator registry: the attributes the loop reads. *)
Module Estimator.
Record t : Type := mk {
  scoring : bool;
  estimator : Est
}.
End Estimator.

(** A persisted model object. *)
Inductive Predictor : Type := Pickled (name : string).

(** Modelled from the spec: class [Model] of [alphapy.model] is not among
    the sources.  The fields are those the pipelines read ([specs],
    [algolist], [X_test]) and the data and per-algorithm artifacts of the
    model state of the specification. *)
Module Model.
Record t : Type := mk {
  specs : Specs.t;
  algolist : list string;
  X_train : Table;
  X_test : Table;
  y_train : list Z;
  y_test : list Z;
  estimators : list (string * Est);
  preds : list (string * list Z);
  best : option string
}.
End Model.

(** ** Events and exceptions *)

(** What is passed to a logger or to a collaborator. *)
Inductive value : Type :=
| VNone
| VBool (b : bool)
| VNat (n : nat)
| VStr (s : string)
| VStrs (l : list string)
| VInts (l : list Z)
| VNats (l : list nat)
| VCells (l : list cell)
| VTable (X : Table)
| VModel (m : Model.t)
| VEst (e : Est)
| VEstimator (e : Estimator.t)
| VPredictor (p : Predictor).

Inductive event : Type :=
| Log (fmt : string) (args : list value)
| Call (fn : string) (args : list value).

(** The exceptions of the pipelines, with their arguments. *)
Inductive exn : Type :=
| IndexError (args : list value)
| KeyError (args : list value)
| UnboundLocalError (name : string)
| ModelNotFound (directory : string).

Inductive result (A : Type) : Type :=
| Ok (a : A)
| Raise (e : exn).
Arguments Ok {A} a.
Arguments Raise {A} e.

(** ** The monad: the events so far, and a value or an exception *)

Definition M (A : Type) : Type := list event * result A.

Definition ret {A} (a : A) : M A := ([], Ok a).

Definition bind {A B} (c : M A) (k : A -> M B) : M B :=
  match c with
  | (t, Ok a) => let r := k a in (t ++ r.1, r.2)
  | (t, Raise e) => (t, Raise e)
  end.

Definition raise {A} (e : exn) : M A := ([], Raise e).

(** [logger.info(fmt, args...)] *)
Definition log (fmt : string) (args : list value) : M unit := ([Log fmt args], Ok tt).

(** A call of a collaborator: the call is recorded, [r] is what it returns. *)
Definition call {A} (fn : string) (args : list value) (r : A) : M A :=
  ([Call fn args], Ok r).

(** A Python [if] without [else] around statements. *)
Definition when (b : bool) (c : M unit) : M unit := if b then c else ret tt.

(** Reading a local variable of a Python function: it is bound or the read
    raises. *)
Definition read_local {A} (name : string) (v : option A) : M A :=
  match v with
  | Some a => ret a
  | None => raise (UnboundLocalError name)
  end.

Notation "x <- c ;; k" := (bind c (fun x => k))
  (at level 100, c at next level, right associativity).
Notation "c ;; k" := (bind c (fun _ => k))
  (at level 100, right associativity).

Definition trace {A} (c : M A) : list event := c.1.
Definition outcome {A} (c : M A) : result A := c.2.

(** ** The collaborators *)

(** The functions the pipelines import, and the attribute test and the two
    methods they apply to objects of the learning library.  A collaborator
    is a function of its arguments; the model object it is given comes back
    as its result, as in [model = f(model, ...)].  [generate_plots] and
    [save_model] are called for their effect only and their result is
    dropped: they are recorded as calls and have no field here.

    A collaborator is taken to return.  An exception of a collaborator
    would leave the pipeline as it is: the one handler of the pipelines,
    the [except KeyError] of the loop, has no collaborator call in its
    [try] block. *)
Record Collaborators : Type := {
  (* alphapy.data *)
  get_data : Model.t -> string -> Table * list Z;
  sample_data : Model.t -> Model.t;
  shuffle_data : Model.t -> Model.t;
  (* alphapy.estimators *)
  get_estimators : Model.t -> gmap string Estimator.t;
  scorers : gmap string string;
  (* alphapy.features *)
  create_features : Table -> Model.t -> nat -> list Z -> Table;
  create_interactions : Table -> Model.t -> Table;
  drop_features : Table -> list string -> Table;
  remove_lv_features : Table -> Table;
  save_features : Model.t -> Table -> Table -> option (list Z) -> option (list Z) -> Model.t;
  select_features : Model.t -> Model.t;
  (* alphapy.model *)
  first_fit : Model.t -> string -> Est -> Model.t;
  generate_metrics : Model.t -> string -> Model.t;
  get_sample_weights : Model.t -> Model.t;
  make_predictions : Model.t -> string -> bool -> Model.t;
  predict_best : Model.t -> Model.t;
  predict_blend : Model.t -> Model.t;
  (* the persisted model objects, by directory *)
  persisted : gmap string Predictor;
  (* alphapy.optimize *)
  hyper_grid_search : Model.t -> Estimator.t -> Model.t;
  rfe_search : Model.t -> string -> Model.t;
  rfecv_search : Model.t -> string -> Model.t;
  (* [hasattr(est, "coef_")]: the estimator object is the one [first_fit]
     has just fitted in place, so the test reads the state the model is in *)
  hasattr_coef_ : Model.t -> Est -> bool;
  (* [predictor.predict(X)] and [predictor.predict_proba(X)] *)
  predict : Predictor -> Table -> list Z;
  predict_proba : Predictor -> Table -> Table
}.

(** Modelled from the spec: [load_model_object] of [alphapy.model] is not
    among the sources.  It loads the model persisted in the directory and
    fails fatally if there is none. *)
Definition load_model_object (K : Collaborators) (directory : string) : M Predictor :=
  match persisted K !! directory with
  | Some p => call "load_model_object" [VStr directory] p
  | None => ([Call "load_model_object" [VStr directory]], Raise (ModelNotFound directory))
  end.

(** [a[:, 1]] on a two-dimensional array: the second column, an
    [IndexError] when axis 1 has fewer than two entries. *)
Definition column_1 (a : Table) : M (list cell) :=
  if decide (2 <= (shape a).2)
  then ret (map (fun r => default None (r !! 1%nat)) (rows a))
  else raise (IndexError [VStr "index 1 is out of bounds for axis 1"; VNat (shape a).2]).

(** ** The per-algorithm loop of [model_pipeline] *)

(** The local variables of [model_pipeline] that the [try] block of the
    loop assigns.  A Python local is unbound until its first assignment
    and keeps its value from one iteration to the next. *)
Record Locals : Type := {
  loc_estimator : option Estimator.t;
  loc_scoring : option bool;
  loc_est : option Est
}.

Definition unbound : Locals :=
  {| loc_estimator := None; loc_scoring := None; loc_est := None |}.

(** [for algo in l: body], over the state the body updates. *)
Fixpoint for_each {S} (body : string -> S -> M S) (l : list string) (st : S) : M S :=
  match l with
  | [] => ret st
  | algo :: l' => st' <- body algo st ;; for_each body l' st'
  end.

(** The [try: ... except KeyError: ...] block that selects the estimator.
    [estimators[algo]] is the one statement of the block that raises
    [KeyError], and it comes first: the three assignments happen together
    or not at all, and the handler only logs. *)
Definition select_estimator (estimators : gmap string Estimator.t) (algo : string)
    (L : Locals) : M Locals :=
  match estimators !! algo with
  | Some estimator =>
      ret {| loc_estimator := Some estimator;
             loc_scoring := Some (Estimator.scoring estimator);
             loc_est := Some (Estimator.estimator estimator) |}
  | None => log "Algorithm %s not found" [VStr algo] ;; ret L
  end.

(** The [if rfe:] block: recursive feature elimination. *)
Definition recursive_elimination (K : Collaborators) (rfe : bool) (algo : string)
    (L : Locals) (model : Model.t) : M Model.t :=
  if rfe then
    scoring <- read_local "scoring" (loc_scoring L) ;;
    if scoring : bool then
      call "rfecv_search" [VModel model; VStr algo] (rfecv_search K model algo)
    else
      est <- read_local "est" (loc_est L) ;;
      if hasattr_coef_ K model est then
        call "rfe_search" [VModel model; VStr algo] (rfe_search K model algo)
      else
        log "No RFE Available for %s" [VStr algo] ;; ret model
  else ret model.

(** The body of [for algo in model.algolist:].  The two entry points differ
    in the condition of the feature-selection [if] only; [select] is that
    condition ([feature_selection] in [__main__.py],
    [feature_selection and not grid_search] in [alpha.py]). *)
Definition algo_iteration (K : Collaborators) (select rfe grid_search calibration : bool)
    (estimators : gmap string Estimator.t) (algo : string)
    (st : Model.t * Locals) : M (Model.t * Locals) :=
  let model := st.1 in
  log "Algorithm: %s" [VStr algo] ;;
  (* select estimator *)
  L <- select_estimator estimators algo st.2 ;;
  (* feature selection *)
  model <- (if select
            then call "select_features" [VModel model] (select_features K model)
            else ret model) ;;
  (* initial fit *)
  est <- read_local "est" (loc_est L) ;;
  model <- call "first_fit" [VModel model; VStr algo; VEst est] (first_fit K model algo est) ;;
  (* recursive feature elimination *)
  model <- recursive_elimination K rfe algo L model ;;
  (* grid search *)
  model <- (if grid_search then
              estimator <- read_local "estimator" (loc_estimator L) ;;
              call "hyper_grid_search" [VModel model; VEstimator estimator]
                   (hyper_grid_search K model estimator)
            else ret model) ;;
  (* predictions *)
  model <- call "make_predictions" [VModel model; VStr algo; VBool calibration]
                (make_predictions K model algo calibration) ;;
  ret (model, L).

(** ** [score_with_model], the same text in both files *)

Definition score_with_model (K : Collaborators) (model : Model.t) : M unit :=
  log "SCORING" [] ;;
  (* Unpack the model data *)
  let X_test := Model.X_test model in
  (* Unpack the model specifications *)
  let directory := Specs.directory (Model.specs model) in
  let model_type := Specs.model_type (Model.specs model) in
  (* Load model object *)
  predictor <- load_model_object K directory ;;
  (* Score the test data *)
  preds <- call "predict" [VPredictor predictor; VTable X_test] (predict K predictor X_test) ;;
  log "Predictions: %s" [VInts preds] ;;
  when (is_classification model_type) (
    proba <- call "predict_proba" [VPredictor predictor; VTable X_test]
                  (predict_proba K predictor X_test) ;;
    probas <- column_1 proba ;;
    log "Probabilities: %s" [VCells probas]).

(** ** [alphapy/__main__.py] *)

Module Main.

Definition data_pipeline (K : Collaborators) (model : Model.t) : M Model.t :=
  log "DATA PIPELINE" [] ;;
  (* Unpack the model specifications *)
  let drop := Specs.drop (Model.specs model) in
  let model_type := Specs.model_type (Model.specs model) in
  let target := Specs.target (Model.specs model) in
  let test_labels := Specs.test_labels (Model.specs model) in
  (* Get train and test data *)
  train <- call "get_data" [VModel model; VStr "train"] (get_data K model "train") ;;
  let X_train := train.1 in
  let y_train := train.2 in
  test <- call "get_data" [VModel model; VStr "test"] (get_data K model "test") ;;
  let X_test := test.1 in
  let y_test := test.2 in
  (* Drop features *)
  log "Dropping Features: %s" [VStrs drop] ;;
  X_train <- call "drop_features" [VTable X_train; VStrs drop] (drop_features K X_train drop) ;;
  X_test <- call "drop_features" [VTable X_test; VStrs drop] (drop_features K X_test drop) ;;
  (* Log feature statistics *)
  log "Original Feature Statistics" [] ;;
  log "Number of Training Rows    : %d" [VNat (shape X_train).1] ;;
  log "Number of Training Columns : %d" [VNat (shape X_train).2] ;;
  when (is_classification model_type) (
    log "Unique Training Values for %s : %s" [VStr target; VInts (np_unique y_train).1] ;;
    log "Unique Training Counts for %s : %s" [VStr target; VNats (np_unique y_train).2]) ;;
  log "Number of Testing Rows     : %d" [VNat (shape X_test).1] ;;
  log "Number of Testing Columns  : %d" [VNat (shape X_test).2] ;;
  when (is_classification model_type && test_labels) (
    log "Unique Testing Values for %s : %s" [VStr target; VInts (np_unique y_test).1] ;;
    log "Unique Testing Counts for %s : %s" [VStr target; VNats (np_unique y_test).2]) ;;
  (* Merge training and test data *)
  merged <- (if decide ((shape X_train).2 = (shape X_test).2)
             then ret ((shape X_train).1, pd_concat X_train X_test)
             else raise (IndexError
                           [VStr "The number of training and test columns [%s, %s] must match.";
                            VNat (shape X_train).2; VNat (shape X_test).2])) ;;
  let split_point := merged.1 in
  let X := merged.2 in
  (* Create initial features *)
  new_features <- call "create_features" [VTable X; VModel model; VNat split_point; VInts y_train]
                       (create_features K X model split_point y_train) ;;
  let X_train := (array_split new_features split_point).1 in
  let X_test := (array_split new_features split_point).2 in
  model <- call "save_features"
                [VModel model; VTable X_train; VTable X_test; VInts y_train; VInts y_test]
                (save_features K model X_train X_test (Some y_train) (Some y_test)) ;;
  (* Generate interactions *)
  all_features <- call "create_interactions" [VTable new_features; VModel model]
                       (create_interactions K new_features model) ;;
  let X_train := (array_split all_features split_point).1 in
  let X_test := (array_split all_features split_point).2 in
  model <- call "save_features" [VModel model; VTable X_train; VTable X_test]
                (save_features K model X_train X_test None None) ;;
  (* Remove low-variance features *)
  sig_features <- call "remove_lv_features" [VTable all_features]
                       (remove_lv_features K all_features) ;;
  (* Save the model's feature set *)
  let X_train := (array_split sig_features split_point).1 in
  let X_test := (array_split sig_features split_point).2 in
  model <- call "save_features" [VModel model; VTable X_train; VTable X_test]
                (save_features K model X_train X_test None None) ;;
  (* Return the model *)
  ret model.

Definition model_pipeline (K : Collaborators) (model : Model.t) : M Model.t :=
  log "MODEL PIPELINE" [] ;;
  (* Unpack the model specifications *)
  let calibration := Specs.calibration (Model.specs model) in
  let feature_selection := Specs.feature_selection (Model.specs model) in
  let grid_search := Specs.grid_search (Model.specs model) in
  let model_type := Specs.model_type (Model.specs model) in
  let rfe := Specs.rfe (Model.specs model) in
  let sampling := Specs.sampling (Model.specs model) in
  let scorer := Specs.scorer (Model.specs model) in
  let test_labels := Specs.test_labels (Model.specs model) in
  (* Shuffle the data [if specified] *)
  model <- call "shuffle_data" [VModel model] (shuffle_data K model) ;;
  (* Oversampling or Undersampling [if specified] *)
  model <- (if is_classification model_type then
              model <- (if sampling
                        then call "sample_data" [VModel model] (sample_data K model)
                        else log "Skipping Sampling" [] ;; ret model) ;;
              (* Get sample weights (classification only) *)
              call "get_sample_weights" [VModel model] (get_sample_weights K model)
            else ret model) ;;
  (* Get the available classifiers and regressors *)
  log "Getting All Estimators" [] ;;
  estimators <- call "get_estimators" [VModel model] (get_estimators K model) ;;
  (* Get the available scorers *)
  match scorers K !! scorer with
  | None => raise (KeyError [VStr "Scorer function %s not found"; VStr scorer])
  | Some _ => ret tt
  end ;;
  (* Model Selection *)
  log "Selecting Models" [] ;;
  st <- for_each (algo_iteration K feature_selection rfe grid_search calibration estimators)
                 (Model.algolist model) (model, unbound) ;;
  let model := st.1 in
  (* Create a blended estimator *)
  model <- (if decide (1 < length (Model.algolist model))
            then call "predict_blend" [VModel model] (predict_blend K model)
            else ret model) ;;
  (* Generate metrics *)
  model <- call "generate_metrics" [VModel model; VStr "train"] (generate_metrics K model "train") ;;
  model <- call "generate_metrics" [VModel model; VStr "test"] (generate_metrics K model "test") ;;
  (* Store the best estimator *)
  model <- call "predict_best" [VModel model] (predict_best K model) ;;
  (* Generate plots *)
  call "generate_plots" [VModel model; VStr "train"] tt ;;
  when test_labels (call "generate_plots" [VModel model; VStr "test"] tt) ;;
  (* Save best features and predictions *)
  call "save_model" [VModel model; VStr "BEST"; VStr "test"] tt ;;
  (* Return the model *)
  ret model.

Definition main_pipeline (K : Collaborators) (model : Model.t) : M Model.t :=
  (* Extract any model specifications *)
  let scoring := Specs.scoring (Model.specs model) in
  (* Call the data pipeline *)
  model <- data_pipeline K model ;;
  (* Scoring Only or Calibration *)
  model <- (if scoring
            then score_with_model K model ;; ret model
            else model_pipeline K model) ;;
  (* Return the completed model *)
  ret model.

End Main.

(** ** [alphapy/alpha.py] *)

Module Alpha.

Definition data_pipeline (K : Collaborators) (model : Model.t) : M Model.t :=
  log "DATA PIPELINE" [] ;;
  (* Unpack the model specifications *)
  let drop := Specs.drop (Model.specs model) in
  let target := Specs.target (Model.specs model) in
  let test_labels := Specs.test_labels (Model.specs model) in
  (* Get train and test data *)
  train <- call "get_data" [VModel model; VStr "train"] (get_data K model "train") ;;
  let X_train := train.1 in
  let y_train := train.2 in
  test <- call "get_data" [VModel model; VStr "test"] (get_data K model "test") ;;
  let X_test := test.1 in
  let y_test := test.2 in
  (* Drop features *)
  X_train <- call "drop_features" [VTable X_train; VStrs drop] (drop_features K X_train drop) ;;
  X_test <- call "drop_features" [VTable X_test; VStrs drop] (drop_features K X_test drop) ;;
  (* Log feature statistics *)
  log "Original Feature Statistics" [] ;;
  log "Number of Training Rows    : %d" [VNat (shape X_train).1] ;;
  log "Number of Training Columns : %d" [VNat (shape X_train).2] ;;
  log "Unique Training Values for %s : %s" [VStr target; VInts (np_unique y_train).1] ;;
  log "Unique Training Counts for %s : %s" [VStr target; VNats (np_unique y_train).2] ;;
  log "Number of Testing Rows     : %d" [VNat (shape X_test).1] ;;
  log "Number of Testing Columns  : %d" [VNat (shape X_test).2] ;;
  when test_labels (
    log "Unique Testing Values for %s : %s" [VStr target; VInts (np_unique y_test).1] ;;
    log "Unique Testing Counts for %s : %s" [VStr target; VNats (np_unique y_test).2]) ;;
  (* Merge training and test data *)
  merged <- (if decide ((shape X_train).2 = (shape X_test).2)
             then ret ((shape X_train).1, pd_concat X_train X_test)
             else raise (IndexError
                           [VStr "The number of training and test columns [%s, %s] must match.";
                            VNat (shape X_train).2; VNat (shape X_test).2])) ;;
  let split_point := merged.1 in
  let X := merged.2 in
  (* Create initial features *)
  new_features <- call "create_features" [VTable X; VModel model; VNat split_point; VInts y_train]
                       (create_features K X model split_point y_train) ;;
  let X_train := (array_split new_features split_point).1 in
  let X_test := (array_split new_features split_point).2 in
  model <- call "save_features"
                [VModel model; VTable X_train; VTable X_test; VInts y_train; VInts y_test]
                (save_features K model X_train X_test (Some y_train) (Some y_test)) ;;
  (* Generate interactions *)
  all_features <- call "create_interactions" [VTable new_features; VModel model]
                       (create_interactions K new_features model) ;;
  let X_train := (array_split all_features split_point).1 in
  let X_test := (array_split all_features split_point).2 in
  model <- call "save_features" [VModel model; VTable X_train; VTable X_test]
                (save_features K model X_train X_test None None) ;;
  (* Remove low-variance features *)
  sig_features <- call "remove_lv_features" [VTable all_features]
                       (remove_lv_features K all_features) ;;
  (* Save the model's feature set *)
  log "Feature Names : %s" [VStrs (columns sig_features)] ;;
  let X_train := (array_split sig_features split_point).1 in
  let X_test := (array_split sig_features split_point).2 in
  model <- call "save_features" [VModel model; VTable X_train; VTable X_test]
                (save_features K model X_train X_test None None) ;;
  (* Return the model *)
  ret model.

Definition model_pipeline (K : Collaborators) (model : Model.t) : M Model.t :=
  log "MODEL PIPELINE" [] ;;
  (* Unpack the model specifications *)
  let calibration := Specs.calibration (Model.specs model) in
  let feature_selection := Specs.feature_selection (Model.specs model) in
  let grid_search := Specs.grid_search (Model.specs model) in
  let rfe := Specs.rfe (Model.specs model) in
  let sampling := Specs.sampling (Model.specs model) in
  let scorer := Specs.scorer (Model.specs model) in
  let test_labels := Specs.test_labels (Model.specs model) in
  (* Shuffle the data [if specified] *)
  model <- call "shuffle_data" [VModel model] (shuffle_data K model) ;;
  (* Oversampling or Undersampling [if specified] *)
  model <- (if sampling
            then call "sample_data" [VModel model] (sample_data K model)
            else log "Skipping Sampling" [] ;; ret model) ;;
  (* Get sample weights *)
  model <- call "get_sample_weights" [VModel model] (get_sample_weights K model) ;;
  (* Get the available classifiers and regressors *)
  log "Getting All Estimators" [] ;;
  estimators <- call "get_estimators" [VModel model] (get_estimators K model) ;;
  (* Get the available scorers *)
  match scorers K !! scorer with
  | None => raise (KeyError [VStr "Scorer function %s not found"; VStr scorer])
  | Some _ => ret tt
  end ;;
  (* Model Selection *)
  log "Selecting Models" [] ;;
  st <- for_each (algo_iteration K (feature_selection && negb grid_search)
                                 rfe grid_search calibration estimators)
                 (Model.algolist model) (model, unbound) ;;
  let model := st.1 in
  (* Create a blended estimator *)
  model <- (if decide (1 < length (Model.algolist model))
            then call "predict_blend" [VModel model] (predict_blend K model)
            else ret model) ;;
  (* Generate metrics *)
  model <- call "generate_metrics" [VModel model; VStr "train"] (generate_metrics K model "train") ;;
  model <- call "generate_metrics" [VModel model; VStr "test"] (generate_metrics K model "test") ;;
  (* Store the best estimator *)
  model <- call "predict_best" [VModel model] (predict_best K model) ;;
  (* Generate plots *)
  call "generate_plots" [VModel model; VStr "train"] tt ;;
  when test_labels (call "generate_plots" [VModel model; VStr "test"] tt) ;;
  (* Save best features and predictions *)
  call "save_model" [VModel model; VStr "BEST"; VStr "test"] tt ;;
  (* Return the model *)
  ret model.

Definition main_pipeline (K : Collaborators) (model : Model.t) : M Model.t :=
  (* Unpack the model specifications *)
  let scoring_mode := Specs.scoring_mode (Model.specs model) in
  (* Call the data pipeline *)
  model <- data_pipeline K model ;;
  (* Scoring Only or Calibration *)
  model <- (if scoring_mode
            then score_with_model K model ;; ret model
            else model_pipeline K model) ;;
  (* Return the completed model *)
  ret model.

End Alpha.

(** ** Reading a trace *)

(** The argument lists of the calls of [fn], in order. *)
Definition calls (fn : string) (t : list event) : list (list value) :=
  omap (fun e => match e with
                 | Call g args => if String.eqb g fn then Some args else None
                 | Log _ _ => None
                 end) t.

(** The log lines with format [fmt], in order. *)
Definition logs (fmt : string) (t : list event) : list (list value) :=
  omap (fun e => match e with
                 | Log f args => if String.eqb f fmt then Some args else None
                 | Call _ _ => None
                 end) t.

(** The feature tables handed to [save_features], in order: the snapshots
    of the train and test tables. *)
Definition snapshots (t : list event) : list (Table * Table) :=
  omap (fun args => match args with
                    | _ :: VTable X_train :: VTable X_test :: _ => Some (X_train, X_test)
                    | _ => None
                    end) (calls "save_features" t).

(** The algorithm a per-algorithm call is for (its second argument). *)
Definition algo_of (args : list value) : option string :=
  match args with
  | _ :: VStr algo :: _ => Some algo
  | _ => None
  end.

(** The names that [make_predictions] attached predictions under, without
    repeats, whether the registry has them or not. *)
Definition algorithms_with_artifacts (t : list event) : list string :=
  remove_dups (omap algo_of (calls "make_predictions" t)).

(** ** A concrete set of collaborators *)

Module Toy.

Definition drop_columns (X : Table) (drop : list string) : Table :=
  let cols := filter (fun c : string => c ∉ drop) (columns X) in
  {| columns := cols; rows := map (reindex (columns X) cols) (rows X) |}.

Definition set_features (m : Model.t) (X_train X_test : Table)
    (y_train y_test : option (list Z)) : Model.t :=
  Model.mk (Model.specs m) (Model.algolist m) X_train X_test
    (default (Model.y_train m) y_train) (default (Model.y_test m) y_test)
    (Model.estimators m) (Model.preds m) (Model.best m).

Definition add_estimator (m : Model.t) (algo : string) (est : Est) : Model.t :=
  Model.mk (Model.specs m) (Model.algolist m) (Model.X_train m) (Model.X_test m)
    (Model.y_train m) (Model.y_test m)
    ((algo, est) :: Model.estimators m) (Model.preds m) (Model.best m).

Definition add_preds (m : Model.t) (algo : string) (p : list Z) : Model.t :=
  Model.mk (Model.specs m) (Model.algolist m) (Model.X_train m) (Model.X_test m)
    (Model.y_train m) (Model.y_test m)
    (Model.estimators m) ((algo, p) :: Model.preds m) (Model.best m).

Definition set_best (m : Model.t) : Model.t :=
  Model.mk (Model.specs m) (Model.algolist m) (Model.X_train m) (Model.X_test m)
    (Model.y_train m) (Model.y_test m)
    (Model.estimators m) (Model.preds m) (head (reverse (map fst (Model.preds m)))).

(** The first column only, on both tables. *)
Definition first_column (m : Model.t) : Model.t :=
  set_features m
    (drop_columns (Model.X_train m) (tail (columns (Model.X_train m))))
    (drop_columns (Model.X_test m) (tail (columns (Model.X_test m))))
    None None.

Definition registry : gmap string Estimator.t :=
  {[ "LOGR" := Estimator.mk true (SkEstimator "LogisticRegression");
     "RF" := Estimator.mk false (SkEstimator "RandomForestClassifier") ]}.

Definition K : Collaborators := {|
  get_data := fun m partition =>
    if decide (partition = "train") then (Model.X_train m, Model.y_train m)
    else (Model.X_test m, Model.y_test m);
  sample_data := fun m => m;
  shuffle_data := fun m => m;
  get_estimators := fun _ => registry;
  scorers := {[ "roc_auc" := "roc_auc" ]};
  create_features := fun X _ _ _ => X;
  create_interactions := fun X _ => X;
  drop_features := drop_columns;
  remove_lv_features := fun X => X;
  save_features := set_features;
  select_features := first_column;
  first_fit := add_estimator;
  generate_metrics := fun m _ => m;
  get_sample_weights := fun m => m;
  make_predictions := fun m algo _ => add_preds m algo (Model.y_train m);
  predict_best := set_best;
  predict_blend := fun m => add_preds m "BLEND" (Model.y_train m);
  persisted := {[ "./model" := Pickled "BEST" ]};
  hyper_grid_search := fun m _ => m;
  rfe_search := fun m _ => m;
  rfecv_search := fun m _ => m;
  hasattr_coef_ := fun _ est =>
    match est with SkEstimator name => bool_decide (name = "LogisticRegression") end;
  predict := fun _ X => map (fun _ => 1%Z) (rows X);
  predict_proba := fun _ X =>
    {| columns := ["0"; "1"]; rows := map (fun _ => [Some 0%Z; Some 1%Z]) (rows X) |}
|}.

Definition specs (scorer : string) (directory : string) (scoring : bool)
    (feature_selection grid_search rfe : bool) : Specs.t :=
  Specs.mk false directory ["id"] feature_selection grid_search classification rfe
           false scorer scoring scoring "y" true.

Definition train : Table :=
  {| columns := ["id"; "a"; "b"];
     rows := [[Some 1; Some 10; Some 0]; [Some 2; Some 20; Some 1]]%Z |}.

Definition test : Table :=
  {| columns := ["id"; "a"; "b"]; rows := [[Some 3; Some 30; Some 1]]%Z |}.

(** A test table with a column less. *)
Definition narrow_test : Table :=
  {| columns := ["id"; "a"]; rows := [[Some 3; Some 30]]%Z |}.

Definition model (s : Specs.t) (algolist : list string) (X_test : Table) : Model.t :=
  Model.mk s algolist train X_test [0; 1]%Z [1]%Z [] [] None.

(** A training run over two algorithms of the registry. *)
Definition training : Model.t :=
  model (specs "roc_auc" "./model" false true false true) ["LOGR"; "RF"] test.


(** The first algorithm is not in the registry, the second is. *)
Definition unresolved_first : Model.t :=
  model (specs "roc_auc" "./model" false true false true) ["XGB"; "LOGR"] test.

(** The second algorithm is not in the registry, the first is. *)
Definition unresolved_second : Model.t :=
  model (specs "roc_auc" "./model" false true false true) ["LOGR"; "XGB"] test.

(** A scorer that is not in the table of scorers. *)
Definition unknown_scorer : Model.t :=
  model (specs "f7" "./model" false true false true) ["LOGR"; "RF"] test.


(** A scoring run, with a model persisted in the configured directory. *)
Definition scoring_run : Model.t :=
  model (specs "roc_auc" "./model" true false false false) ["LOGR"] test.

(** A scoring run, with nothing persisted in the configured directory. *)
Definition scoring_run_no_model : Model.t :=
  model (specs "roc_auc" "./nowhere" true false false false) ["LOGR"] test.


(** Feature selection and grid search both enabled. *)
Definition selection_and_grid_search : Model.t :=
  model (specs "roc_auc" "./model" false true true false) ["LOGR"; "RF"] test.


(** A training run with no algorithm configured. *)
Definition no_algorithms : Model.t :=
  model (specs "roc_auc" "./model" false true false true) [] test.

(** A test table with a column less than the train table. *)
Definition mismatched : Model.t :=
  model (specs "roc_auc" "./model" false true false true) ["LOGR"; "RF"] narrow_test.

(** Collaborators whose first transform keeps the first row only. *)
Definition K_first_row : Collaborators := {|
  get_data := get_data K;
  sample_data := sample_data K;
  shuffle_data := shuffle_data K;
  get_estimators := get_estimators K;
  scorers := scorers K;
  create_features := fun X _ _ _ => {| columns := columns X; rows := take 1 (rows X) |};
  create_interactions := create_interactions K;
  drop_features := drop_features K;
  remove_lv_features := remove_lv_features K;
  save_features := save_features K;
  select_features := select_features K;
  first_fit := first_fit K;
  generate_metrics := generate_metrics K;
  get_sample_weights := get_sample_weights K;
  make_predictions := make_predictions K;
  predict_best := predict_best K;
  predict_blend := predict_blend K;
  persisted := persisted K;
  hyper_grid_search := hyper_grid_search K;
  rfe_search := rfe_search K;
  rfecv_search := rfecv_search K;
  hasattr_coef_ := hasattr_coef_ K;
  predict := predict K;
  predict_proba := predict_proba K
|}.

(** Collaborators whose persisted model gives one column of probabilities. *)
Definition K_one_class : Collaborators := {|
  get_data := get_data K;
  sample_data := sample_data K;
  shuffle_data := shuffle_data K;
  get_estimators := get_estimators K;
  scorers := scorers K;
  create_features := create_features K;
  create_interactions := create_interactions K;
  drop_features := drop_features K;
  remove_lv_features := remove_lv_features K;
  save_features := save_features K;
  select_features := select_features K;
  first_fit := first_fit K;
  generate_metrics := generate_metrics K;
  get_sample_weights := get_sample_weights K;
  make_predictions := make_predictions K;
  predict_best := predict_best K;
  predict_blend := predict_blend K;
  persisted := persisted K;
  hyper_grid_search := hyper_grid_search K;
  rfe_search := rfe_search K;
  rfecv_search := rfecv_search K;
  hasattr_coef_ := hasattr_coef_ K;
  predict := predict K;
  predict_proba := fun _ X => {| columns := ["0"]; rows := map (fun _ => [Some 1%Z]) (rows X) |}
|}.


End Toy.

(** ** What the claims are stated with *)

(** The train and test feature tables after the configured columns are
    dropped, as [data_pipeline] computes them. *)
Definition dropped_train (K : Collaborators) (model : Model.t) : Table :=
  drop_features K (get_data K model "train").1 (Specs.drop (Model.specs model)).

Definition dropped_test (K : Collaborators) (model : Model.t) : Table :=
  drop_features K (get_data K model "test").1 (Specs.drop (Model.specs model)).

(** The message of the data-shape error. *)
Definition shape_error (train_columns test_columns : nat) : exn :=
  IndexError [VStr "The number of training and test columns [%s, %s] must match.";
              VNat train_columns; VNat test_columns].

(** The three external transforms of the data pipeline return as many rows
    as they are given. *)
Definition row_preserving (K : Collaborators) : Prop :=
  (forall X m k y, (shape (create_features K X m k y)).1 = (shape X).1) /\
  (forall X m, (shape (create_interactions K X m)).1 = (shape X).1) /\
  (forall X, (shape (remove_lv_features K X)).1 = (shape X).1).

(** What a run of a data pipeline on [model] does about the column counts:
    it raises the shape error, which carries both counts, exactly when they
    differ; then nothing is handed on (no transform is called, no snapshot
    is saved).  When they agree the run returns a model, and the one table
    handed to [create_features] is the concatenation of the two tables,
    with all the rows of both. *)
Definition shape_contract (K : Collaborators) (model : Model.t) (run : M Model.t) : Prop :=
  let X_train := dropped_train K model in
  let X_test := dropped_test K model in
  (outcome run = Raise (shape_error (shape X_train).2 (shape X_test).2)
   <-> (shape X_train).2 <> (shape X_test).2) /\
  ((shape X_train).2 <> (shape X_test).2 ->
   calls "create_features" (trace run) = [] /\ snapshots (trace run) = []) /\
  ((shape X_train).2 = (shape X_test).2 ->
   (exists m, outcome run = Ok m) /\
   (exists rest, calls "create_features" (trace run)
                 = [VTable (pd_concat X_train X_test) :: rest]) /\
   (shape (pd_concat X_train X_test)).1 = ((shape X_train).1 + (shape X_test).1)%nat).

(** The split point a run records: the one it hands to [create_features]
    together with the merged table. *)
Definition recorded_split_point (t : list event) : option nat :=
  match calls "create_features" t with
  | [_ :: _ :: VNat split_point :: _] => Some split_point
  | _ => None
  end.

(** What a run of a data pipeline on [model] does about the rows: the split
    point it records is the row count of the train table at the merge; it
    saves three snapshots; in each one the train table has as many rows as
    the split point says, and the two tables together have as many rows as
    the two tables that were merged. *)
Definition split_contract (K : Collaborators) (model : Model.t) (run : M Model.t) : Prop :=
  let X_train := dropped_train K model in
  let X_test := dropped_test K model in
  recorded_split_point (trace run) = Some (shape X_train).1 /\
  length (snapshots (trace run)) = 3%nat /\
  Forall (fun s : Table * Table =>
            (shape s.1).1 = (shape X_train).1 /\
            ((shape s.1).1 + (shape s.2).1 = (shape X_train).1 + (shape X_test).1)%nat)
         (snapshots (trace run)).

(** Every local the [try] block assigns is bound. *)
Definition bound (L : Locals) : Prop :=
  is_Some (loc_estimator L) /\ is_Some (loc_scoring L) /\ is_Some (loc_est L).

(** The locals after the [try] block has resolved an algorithm. *)
Definition resolved (estimator : Estimator.t) : Locals :=
  {| loc_estimator := Some estimator;
     loc_scoring := Some (Estimator.scoring estimator);
     loc_est := Some (Estimator.estimator estimator) |}.

(** The events of a trace are log lines with a format of [fmts] and calls
    of a collaborator of [fns]. *)
Definition only_events (fmts fns : list string) (t : list event) : Prop :=
  Forall (fun e => match e with
                   | Log fmt _ => fmt ∈ fmts
                   | Call fn _ => fn ∈ fns
                   end) t.

(** What an iteration of the loop logs and calls. *)
Definition loop_logs : list string :=
  ["Algorithm: %s"; "Algorithm %s not found"; "No RFE Available for %s"].

Definition loop_calls : list string :=
  ["select_features"; "first_fit"; "rfecv_search"; "rfe_search"; "hyper_grid_search";
   "make_predictions"].

(** The collaborators that the model pipeline calls before the blending
    test leave [model.algolist] as it is. *)
Definition keeps_algolist (K : Collaborators) : Prop :=
  (forall m, Model.algolist (shuffle_data K m) = Model.algolist m) /\
  (forall m, Model.algolist (sample_data K m) = Model.algolist m) /\
  (forall m, Model.algolist (get_sample_weights K m) = Model.algolist m) /\
  (forall m, Model.algolist (select_features K m) = Model.algolist m) /\
  (forall m algo est, Model.algolist (first_fit K m algo est) = Model.algolist m) /\
  (forall m algo, Model.algolist (rfecv_search K m algo) = Model.algolist m) /\
  (forall m algo, Model.algolist (rfe_search K m algo) = Model.algolist m) /\
  (forall m e, Model.algolist (hyper_grid_search K m e) = Model.algolist m) /\
  (forall m algo c, Model.algolist (make_predictions K m algo c) = Model.algolist m).

(** The ways of the recursive-elimination step. *)
Inductive elimination : Type := CrossValidated | CoefficientBased | Skipped.

(** The elimination steps of a trace, in order: a call of [rfecv_search],
    a call of [rfe_search], or the log line that says none is available. *)
Definition eliminations (t : list event) : list elimination :=
  omap (fun e => match e with
                 | Call fn _ =>
                     if String.eqb fn "rfecv_search" then Some CrossValidated
                     else if String.eqb fn "rfe_search" then Some CoefficientBased
                     else None
                 | Log fmt _ =>
                     if String.eqb fmt "No RFE Available for %s" then Some Skipped else None
                 end) t.

(** The model an iteration fits first: the incoming one, reduced by the
    selector when the feature-selection test holds. *)
Definition model_to_fit (K : Collaborators) (select : bool) (model : Model.t) : Model.t :=
  if select then select_features K model else model.


(** The statements of [model_pipeline] after the loop, the same in both
    files: blending, metrics, the best model, plots and the saved model. *)
Definition after_loop (K : Collaborators) (test_labels : bool) (model : Model.t) : M Model.t :=
  model <- (if decide (1 < length (Model.algolist model))
            then call "predict_blend" [VModel model] (predict_blend K model)
            else ret model) ;;
  model <- call "generate_metrics" [VModel model; VStr "train"] (generate_metrics K model "train") ;;
  model <- call "generate_metrics" [VModel model; VStr "test"] (generate_metrics K model "test") ;;
  model <- call "predict_best" [VModel model] (predict_best K model) ;;
  call "generate_plots" [VModel model; VStr "train"] tt ;;
  when test_labels (call "generate_plots" [VModel model; VStr "test"] tt) ;;
  call "save_model" [VModel model; VStr "BEST"; VStr "test"] tt ;;
  ret model.

(** The model a recorded call returns, for the calls that return one. *)
Definition returned (K : Collaborators) (e : event) : option Model.t :=
  match e with
  | Call fn [VModel m] =>
      if String.eqb fn "shuffle_data" then Some (shuffle_data K m)
      else if String.eqb fn "sample_data" then Some (sample_data K m)
      else if String.eqb fn "get_sample_weights" then Some (get_sample_weights K m)
      else if String.eqb fn "select_features" then Some (select_features K m)
      else if String.eqb fn "predict_blend" then Some (predict_blend K m)
      else if String.eqb fn "predict_best" then Some (predict_best K m)
      else None
  | Call fn [VModel m; VStr a] =>
      if String.eqb fn "rfecv_search" then Some (rfecv_search K m a)
      else if String.eqb fn "rfe_search" then Some (rfe_search K m a)
      else if String.eqb fn "generate_metrics" then Some (generate_metrics K m a)
      else None
  | Call fn [VModel m; VStr a; VEst est] =>
      if String.eqb fn "first_fit" then Some (first_fit K m a est) else None
  | Call fn [VModel m; VEstimator estimator] =>
      if String.eqb fn "hyper_grid_search" then Some (hyper_grid_search K m estimator) else None
  | Call fn [VModel m; VStr a; VBool c] =>
      if String.eqb fn "make_predictions" then Some (make_predictions K m a c) else None
  | _ => None
  end.

(** The model a recorded call is given, for the calls that are given one. *)
Definition received (e : event) : option Model.t :=
  match e with
  | Call _ (VModel m :: _) => Some m
  | _ => None
  end.

(** The model after the calls of a trace, from [model] on. *)
Fixpoint last_model (K : Collaborators) (model : Model.t) (t : list event) : Model.t :=
  match t with
  | [] => model
  | e :: t' => last_model K (default model (returned K e)) t'
  end.

(** One model is threaded through the calls of a trace, from [model] on:
    every call that is given a model is given the one the calls before it
    have left. *)
Fixpoint threaded (K : Collaborators) (model : Model.t) (t : list event) : Prop :=
  match t with
  | [] => True
  | e :: t' =>
      (forall m, received e = Some m -> m = model) /\
      threaded K (default model (returned K e)) t'
  end.

(** What a model pipeline logs and calls before the loop. *)
Definition before_loop_logs : list string :=
  ["MODEL PIPELINE"; "Skipping Sampling"; "Getting All Estimators"].

Definition before_loop_calls : list string :=
  ["shuffle_data"; "sample_data"; "get_sample_weights"; "get_estimators"].

(** The test [scorer not in scorers]. *)
Definition check_scorer (K : Collaborators) (scorer : string) : M unit :=
  match scorers K !! scorer with
  | None => raise (KeyError [VStr "Scorer function %s not found"; VStr scorer])
  | Some _ => ret tt
  end.

(** The common form of the two model pipelines: some steps before the loop
    that bring the model from [model] to [m0] and call no collaborator of
    the loop; the scorer test; the loop over [m0.algolist] from [m0], the
    locals unbound, with [select] for the feature-selection test; the
    statements after the loop. *)
Definition model_pipeline_form (K : Collaborators) (model : Model.t) (select : bool)
    (run : M Model.t) : Prop :=
  let s := Model.specs model in
  exists (m0 : Model.t) (before : list event),
    only_events before_loop_logs before_loop_calls before /\
    logs "MODEL PIPELINE" before = [[]] /\
    (keeps_algolist K -> Model.algolist m0 = Model.algolist model) /\
    threaded K model before /\
    last_model K model before = m0 /\
    run = ((before, Ok tt) ;;
           check_scorer K (Specs.scorer s) ;;
           log "Selecting Models" [] ;;
           st <- for_each (algo_iteration K select (Specs.rfe s) (Specs.grid_search s)
                                          (Specs.calibration s) (get_estimators K m0))
                          (Model.algolist m0) (m0, unbound) ;;
           after_loop K (Specs.test_labels s) st.1).

(** The algorithms of the registry among those that got artifacts: an
    algorithm that [estimators] does not have is not counted, whatever was
    fitted under its name. *)
Definition resolved_with_artifacts (estimators : gmap string Estimator.t)
    (t : list event) : list string :=
  filter (fun algo => is_Some (estimators !! algo)) (algorithms_with_artifacts t).

(** Blending tied to the algorithms of the registry that got artifacts:
    [predict_blend] is called if and only if there are two or more of them,
    and it is not called when there is exactly one. *)
Definition blend_on_artifacts (estimators : gmap string Estimator.t)
    (run : M Model.t) : Prop :=
  (calls "predict_blend" (trace run) <> []
   <-> 2 <= length (resolved_with_artifacts estimators (trace run))) /\
  (length (resolved_with_artifacts estimators (trace run)) = 1%nat ->
   calls "predict_blend" (trace run) = []).

(** What a run of a model pipeline on [model] does about blending: the test
    is on the length of [model.algolist].  [predict_blend] is called if and
    only if the run returns and the list has two or more entries; it is not
    called for a list of one entry.  When the scorer is known, the list has
    no repeats and all its entries are in the registry, the entries of the
    list are the algorithms of the registry that got artifacts. *)
Definition blend_contract (K : Collaborators) (model : Model.t) (run : M Model.t) : Prop :=
  (calls "predict_blend" (trace run) <> []
   <-> (exists m, outcome run = Ok m) /\ 2 <= length (Model.algolist model)) /\
  (length (Model.algolist model) = 1%nat -> calls "predict_blend" (trace run) = []) /\
  (is_Some (scorers K !! Specs.scorer (Model.specs model)) ->
   NoDup (Model.algolist model) ->
   (forall m algo, algo ∈ Model.algolist model -> is_Some (get_estimators K m !! algo)) ->
   resolved_with_artifacts (get_estimators K model) (trace run) = Model.algolist model).


(** What a model pipeline calls after the loop; it logs nothing there. *)
Definition after_loop_calls : list string :=
  ["predict_blend"; "generate_metrics"; "predict_best"; "generate_plots"; "save_model"].


(** A run that raises on the read of [est] after the handler has logged
    that [algo] was not found: nothing was fitted, no prediction was made
    and no model was saved. *)
Definition aborts_on_unbound_est (algo : string) (run : M Model.t) : Prop :=
  outcome run = Raise (UnboundLocalError "est") /\
  logs "Algorithm %s not found" (trace run) = [[VStr algo]] /\
  calls "first_fit" (trace run) = [] /\
  calls "make_predictions" (trace run) = [] /\
  calls "save_model" (trace run) = [].

(** A run that raises the scorer error before the loop: all it has logged
    and called are the steps before the loop, so no iteration was begun,
    nothing was fitted, no prediction was made and no model was saved. *)
Definition aborts_before_loop (scorer : string) (run : M Model.t) : Prop :=
  outcome run = Raise (KeyError [VStr "Scorer function %s not found"; VStr scorer]) /\
  only_events before_loop_logs before_loop_calls (trace run) /\
  logs "Algorithm: %s" (trace run) = [] /\
  calls "first_fit" (trace run) = [] /\
  calls "make_predictions" (trace run) = [] /\
  calls "save_model" (trace run) = [].


(** What the scoring path logs and calls. *)
Definition scoring_logs : list string := ["SCORING"; "Predictions: %s"; "Probabilities: %s"].

Definition scoring_calls : list string := ["load_model_object"; "predict"; "predict_proba"].

(** What a run of the scoring path on [model] does.  With no model
    persisted in the configured directory it raises from the load, with
    nothing but the banner and the load in its trace.  With one, it calls
    [predict] on the test features of [model] and, for classification and
    only then, [predict_proba] on them; it calls nothing else, so it does
    not train and computes no metric; and it returns, unless the array of
    probabilities has no second column to take. *)
Definition scoring_contract (K : Collaborators) (model : Model.t) (run : M unit) : Prop :=
  let directory := Specs.directory (Model.specs model) in
  let model_type := Specs.model_type (Model.specs model) in
  let X_test := Model.X_test model in
  (persisted K !! directory = None ->
   outcome run = Raise (ModelNotFound directory) /\
   trace run = [Log "SCORING" []; Call "load_model_object" [VStr directory]] /\
   calls "predict" (trace run) = [] /\
   calls "predict_proba" (trace run) = []) /\
  (forall predictor, persisted K !! directory = Some predictor ->
   calls "predict" (trace run) = [[VPredictor predictor; VTable X_test]] /\
   calls "predict_proba" (trace run)
   = (if is_classification model_type then [[VPredictor predictor; VTable X_test]] else []) /\
   only_events scoring_logs scoring_calls (trace run) /\
   (is_classification model_type = false \/ 2 <= (shape (predict_proba K predictor X_test)).2 ->
    outcome run = Ok tt)).

(** What a run [main] of a main pipeline does after its data pipeline
    [data] has returned [m1], with [flag] for the scoring mode and
    [training] for the run of the model pipeline on [m1]: its trace is the
    trace of the data pipeline followed by the trace of the scoring path on
    [m1] when the flag is set and by the trace of the model pipeline on
    [m1] when it is not; the banner of the data pipeline comes first, and
    of the banners of the scoring path and of the model pipeline there is
    one, the one the flag says. *)
Definition branch_contract (K : Collaborators) (flag : bool) (m1 : Model.t)
    (data training main : M Model.t) : Prop :=
  trace main = trace data ++ (if flag then trace (score_with_model K m1) else trace training) /\
  head (trace main) = Some (Log "DATA PIPELINE" []) /\
  logs "DATA PIPELINE" (trace main) = [[]] /\
  logs "SCORING" (trace main) = (if flag then [[]] else []) /\
  logs "MODEL PIPELINE" (trace main) = (if flag then [] else [[]]).

(** In scoring mode the main pipeline returns the model of the data
    pipeline, whenever the scoring path returns; what the scoring path
    raises, the main pipeline raises. *)
Definition scoring_mode_result (K : Collaborators) (m1 : Model.t) (main : M Model.t) : Prop :=
  outcome main = match outcome (score_with_model K m1) with
                 | Ok _ => Ok m1
                 | Raise e => Raise e
                 end.


(** The selector is called once in every iteration the run begins. *)
Definition selects_in_every_iteration (run : M Model.t) : Prop :=
  length (calls "select_features" (trace run)) = length (logs "Algorithm: %s" (trace run)).

(** The banner lines of a trace: those of the data pipeline, of the scoring
    path and of the model pipeline. *)
Definition banners (data scoring training : list (list value)) (t : list event) : Prop :=
  logs "DATA PIPELINE" t = data /\ logs "SCORING" t = scoring /\
  logs "MODEL PIPELINE" t = training.


(** ** The model pipelines in two parts *)

(** The statements of [model_pipeline] of [__main__.py] before the test of
    the scorer; it returns the model the loop begins with. *)
Definition main_prepare (K : Collaborators) (model : Model.t) : M Model.t :=
  log "MODEL PIPELINE" [] ;;
  let model_type := Specs.model_type (Model.specs model) in
  let sampling := Specs.sampling (Model.specs model) in
  model <- call "shuffle_data" [VModel model] (shuffle_data K model) ;;
  model <- (if is_classification model_type then
              model <- (if sampling
                        then call "sample_data" [VModel model] (sample_data K model)
                        else log "Skipping Sampling" [] ;; ret model) ;;
              call "get_sample_weights" [VModel model] (get_sample_weights K model)
            else ret model) ;;
  log "Getting All Estimators" [] ;;
  call "get_estimators" [VModel model] (get_estimators K model) ;;
  ret model.

(** The same statements of [model_pipeline] of [alpha.py]. *)
Definition alpha_prepare (K : Collaborators) (model : Model.t) : M Model.t :=
  log "MODEL PIPELINE" [] ;;
  let sampling := Specs.sampling (Model.specs model) in
  model <- call "shuffle_data" [VModel model] (shuffle_data K model) ;;
  model <- (if sampling
            then call "sample_data" [VModel model] (sample_data K model)
            else log "Skipping Sampling" [] ;; ret model) ;;
  model <- call "get_sample_weights" [VModel model] (get_sample_weights K model) ;;
  log "Getting All Estimators" [] ;;
  call "get_estimators" [VModel model] (get_estimators K model) ;;
  ret model.

(** The model the loop of [__main__.py] begins with. *)
Definition main_model_at_loop (K : Collaborators) (model : Model.t) : Model.t :=
  let shuffled := shuffle_data K model in
  if is_classification (Specs.model_type (Model.specs model))
  then get_sample_weights K
         (if Specs.sampling (Model.specs model) then sample_data K shuffled else shuffled)
  else shuffled.

(** The model the loop of [alpha.py] begins with. *)
Definition alpha_model_at_loop (K : Collaborators) (model : Model.t) : Model.t :=
  let shuffled := shuffle_data K model in
  get_sample_weights K
    (if Specs.sampling (Model.specs model) then sample_data K shuffled else shuffled).

(** The statements of a model pipeline from the test of the scorer on, for
    the options [s] read at the entry, the model [m0] the loop begins with
    and the feature-selection test [select] of the file. *)
Definition select_and_finish (K : Collaborators) (select : bool) (s : Specs.t)
    (m0 : Model.t) : M Model.t :=
  check_scorer K (Specs.scorer s) ;;
  log "Selecting Models" [] ;;
  st <- for_each (algo_iteration K select (Specs.rfe s) (Specs.grid_search s)
                                 (Specs.calibration s) (get_estimators K m0))
                 (Model.algolist m0) (m0, unbound) ;;
  after_loop K (Specs.test_labels s) st.1.

(** The algorithm and the estimator of a recorded initial fit. *)
Definition fit_of (args : list value) : option (string * Est) :=
  match args with
  | [_; VStr algo; VEst est] => Some (algo, est)
  | _ => None
  end.

(** The initial fits of a loop over [l] that begins with [est] for the
    local [est]: an algorithm of the registry is fitted on its own
    estimator, and one that is not is fitted on the estimator of the
    nearest algorithm of the registry before it; when there is none the
    loop ends there. *)
Fixpoint fitted_with (estimators : gmap string Estimator.t) (est : option Est)
    (l : list string) : list (string * Est) :=
  match l with
  | [] => []
  | algo :: l' =>
      let est' := match estimators !! algo with
                  | Some e => Some (Estimator.estimator e)
                  | None => est
                  end in
      match est' with
      | Some x => (algo, x) :: fitted_with estimators est' l'
      | None => []
      end
  end.

(** The fits and the predictions of a run of a model pipeline whose loop
    begins with [m0]: none when the scorer is unknown, else those of
    [fitted_with] from the unbound [est]. *)
Definition fits_contract (K : Collaborators) (s : Specs.t) (m0 : Model.t)
    (run : M Model.t) : Prop :=
  let expected := match scorers K !! Specs.scorer s with
                  | Some _ => fitted_with (get_estimators K m0) None (Model.algolist m0)
                  | None => []
                  end in
  omap fit_of (calls "first_fit" (trace run)) = expected /\
  omap algo_of (calls "make_predictions" (trace run)) = map fst expected.



(** A run of a model pipeline over an empty list of algorithms, from the
    model [m0]: no iteration, no fit, no prediction and no blend, and yet
    metrics, a best model and a saved model, all of [m0]. *)
Definition empty_list_contract (K : Collaborators) (m0 : Model.t) (run : M Model.t) : Prop :=
  let best := predict_best K (generate_metrics K (generate_metrics K m0 "train") "test") in
  outcome run = Ok best /\
  logs "Algorithm: %s" (trace run) = [] /\
  calls "first_fit" (trace run) = [] /\
  calls "make_predictions" (trace run) = [] /\
  calls "predict_blend" (trace run) = [] /\
  calls "generate_metrics" (trace run)
  = [[VModel m0; VStr "train"]; [VModel (generate_metrics K m0 "train"); VStr "test"]] /\
  calls "save_model" (trace run) = [[VModel best; VStr "BEST"; VStr "test"]].

(** A run in two parts: the steps before the scorer test, which log and
    call what comes before the loop and return [m0], and the rest of the
    pipeline from [m0]. *)
Definition in_two_parts (K : Collaborators) (select : bool) (s : Specs.t) (m0 : Model.t)
    (run : M Model.t) : Prop :=
  exists before,
    only_events before_loop_logs before_loop_calls before /\
    trace run = before ++ trace (select_and_finish K select s m0) /\
    outcome run = outcome (select_and_finish K select s m0).

(** What a run of a model pipeline on [model] does about sampling, with
    [gate] for the test around the sampling block ([model_type ==
    ModelType.classification] in [__main__.py], none in [alpha.py]): the
    data is shuffled once; it is sampled when the gate and [sampling]
    hold, and the skip is logged when the gate holds and [sampling] does
    not; the sample weights are computed once when the gate holds and not
    at all when it does not. *)
Definition sampling_contract (K : Collaborators) (model : Model.t) (gate : bool)
    (run : M Model.t) : Prop :=
  let sampling := Specs.sampling (Model.specs model) in
  calls "shuffle_data" (trace run) = [[VModel model]] /\
  calls "sample_data" (trace run)
  = (if gate && sampling then [[VModel (shuffle_data K model)]] else []) /\
  length (calls "get_sample_weights" (trace run)) = (if gate then 1%nat else 0%nat) /\
  logs "Skipping Sampling" (trace run) = (if gate && negb sampling then [[]] else []).

(** ** More of the data pipelines, of the main pipelines and of the scoring path *)

(** The calls of a trace, in order, without the log lines. *)
Definition all_calls (t : list event) : list (string * list value) :=
  omap (fun e => match e with
                 | Call fn args => Some (fn, args)
                 | Log _ _ => None
                 end) t.

(** What a run of a data pipeline on [model] saves, whatever the external
    transforms return: in every snapshot the train and the test table have
    the same column labels; the train table has at most as many rows as
    the split point says, and when it has fewer the test table is empty.
    With equal column counts there are three snapshots and the run
    returns. *)
Definition resplit_contract (K : Collaborators) (model : Model.t) (run : M Model.t) : Prop :=
  let split_point := (shape (dropped_train K model)).1 in
  Forall (fun s : Table * Table =>
            columns s.1 = columns s.2 /\
            (shape s.1).1 <= split_point /\
            ((shape s.1).1 < split_point -> (shape s.2).1 = 0%nat))
         (snapshots (trace run)) /\
  ((shape (dropped_train K model)).2 = (shape (dropped_test K model)).2 ->
   length (snapshots (trace run)) = 3%nat /\ exists m, outcome run = Ok m).

(** The log lines of a data pipeline on [model] about the distinct values
    of the labels: those of the training labels when [train_gate] holds,
    those of the test labels when [test_gate] holds. *)
Definition unique_values_contract (K : Collaborators) (model : Model.t)
    (train_gate test_gate : bool) (run : M Model.t) : Prop :=
  let target := Specs.target (Model.specs model) in
  let y_train := (get_data K model "train").2 in
  let y_test := (get_data K model "test").2 in
  logs "Unique Training Values for %s : %s" (trace run)
  = (if train_gate then [[VStr target; VInts (np_unique y_train).1]] else []) /\
  logs "Unique Training Counts for %s : %s" (trace run)
  = (if train_gate then [[VStr target; VNats (np_unique y_train).2]] else []) /\
  logs "Unique Testing Values for %s : %s" (trace run)
  = (if test_gate then [[VStr target; VInts (np_unique y_test).1]] else []) /\
  logs "Unique Testing Counts for %s : %s" (trace run)
  = (if test_gate then [[VStr target; VNats (np_unique y_test).2]] else []).

(** A main pipeline whose data pipeline raises: it raises the same
    exception, its trace is the trace of the data pipeline, and neither the
    scoring path nor the model pipeline is entered. *)
Definition stops_with_data_pipeline (e : exn) (data main : M Model.t) : Prop :=
  outcome data = Raise e /\
  outcome main = Raise e /\
  trace main = trace data /\
  logs "SCORING" (trace main) = [] /\
  logs "MODEL PIPELINE" (trace main) = [].

(** ** The entry points: [main] of [__main__.py] and the main program of [alpha.py] *)

(** [s * n] on strings. *)
Fixpoint py_repeat (s : string) (n : nat) : string :=
  match n with
  | 0 => ""
  | S n' => s +:+ py_repeat s n'
  end.

(** The format of the log records, with its tab, and the format of their
    dates. *)
Definition log_format : string :=
  "[%(asctime)s] %(levelname)s" +:+ String (Ascii.ascii_of_nat 9) "%(message)s".

Definition date_format : string := "%m/%d/%y %H:%M:%S".

(** The namespace [parser.parse_args()] returns. *)
Module Args.
Record t : Type := mk {
  cfg_dir : string;
  scoring : bool
}.
End Args.

(** What an entry point gets from outside the pipelines: the namespace
    that [parser.parse_args()] returns for the command line of the
    process ([alpha.py] has no [scoring] option and does not read that
    field), [get_model_config] and the constructor [Model] of
    [alphapy.model]. *)
Record Startup : Type := {
  parse_args : Args.t;
  get_model_config : string -> Specs.t;
  make_model : Specs.t -> Model.t
}.

(** [specs['scoring'] = b] *)
Definition set_scoring (b : bool) (s : Specs.t) : Specs.t :=
  Specs.mk (Specs.calibration s) (Specs.directory s) (Specs.drop s)
           (Specs.feature_selection s) (Specs.grid_search s) (Specs.model_type s)
           (Specs.rfe s) (Specs.sampling s) (Specs.scorer s) b (Specs.scoring_mode s)
           (Specs.target s) (Specs.test_labels s).

(** The logging set-up of an entry point, with the name of its log file. *)
Definition logging_setup (filename : string) : M unit :=
  call "logging.basicConfig"
       [VStr log_format; VStr filename; VStr "a"; VStr "DEBUG"; VStr date_format] tt ;;
  call "logging.Formatter" [VStr log_format; VStr date_format] tt ;;
  call "logging.StreamHandler" [] tt ;;
  call "console.setFormatter" [] tt ;;
  call "console.setLevel" [VStr "INFO"] tt ;;
  call "logging.getLogger().addHandler" [] tt.

(** [main] of [__main__.py].  The configuration map is not among the
    values a trace records: [Model(specs)] is recorded without it. *)
Definition main (K : Collaborators) (S : Startup) : M unit :=
  (* Logging *)
  logging_setup "alphapy.log" ;;
  (* Start the pipeline *)
  log (py_repeat "*" 80) [] ;;
  log "START PIPELINE" [] ;;
  log (py_repeat "*" 80) [] ;;
  (* Argument Parsing *)
  call "argparse.ArgumentParser" [VStr "AlphaPy Parser"] tt ;;
  call "parser.add_argument"
       [VStr "-d"; VStr "cfg_dir"; VStr "."; VStr "directory location of configuration file"] tt ;;
  call "parser.add_mutually_exclusive_group" [VBool false] tt ;;
  call "parser.add_argument" [VStr "--score"; VStr "scoring"; VStr "store_true"] tt ;;
  call "parser.add_argument" [VStr "--train"; VStr "scoring"; VStr "store_false"] tt ;;
  call "parser.set_defaults" [VBool false] tt ;;
  args <- call "parser.parse_args" [] (parse_args S) ;;
  (* Read configuration file *)
  specs <- call "get_model_config" [VStr (Args.cfg_dir args)]
                (get_model_config S (Args.cfg_dir args)) ;;
  let specs := set_scoring (Args.scoring args) specs in
  (* Create a model from the arguments *)
  log "Creating Model" [] ;;
  model <- call "Model" [] (make_model S specs) ;;
  (* Start the pipeline *)
  log "Calling Pipeline" [] ;;
  model <- Main.main_pipeline K model ;;
  (* Complete the pipeline *)
  log (py_repeat "*" 80) [] ;;
  log "END PIPELINE" [] ;;
  log (py_repeat "*" 80) [].

(** The main program of [alpha.py].  [logger.debug] is recorded as a
    call: [Log] is [logger.info]. *)
Definition alpha_main (K : Collaborators) (S : Startup) : M unit :=
  (* Logging *)
  logging_setup "alpha314.log" ;;
  (* Start the pipeline *)
  log (py_repeat "*" 80) [] ;;
  log "START PIPELINE" [] ;;
  log (py_repeat "*" 80) [] ;;
  (* Argument Parsing *)
  call "argparse.ArgumentParser" [VStr "Alpha314 Parser"] tt ;;
  call "parser.add_argument"
       [VStr "-d"; VStr "cfg_dir"; VStr "."; VStr "directory location of configuration file"] tt ;;
  args <- call "parser.parse_args" [] (parse_args S) ;;
  (* Read configuration file *)
  specs <- call "get_model_config" [VStr (Args.cfg_dir args)]
                (get_model_config S (Args.cfg_dir args)) ;;
  (* Debug the program *)
  call "logger.debug"
       [VStr (String (Ascii.ascii_of_nat 10) "" +:+ py_repeat "=" 50 +:+ String (Ascii.ascii_of_nat 10) "")] tt ;;
  (* Create a model from the arguments *)
  log "Creating Model" [] ;;
  model <- call "Model" [] (make_model S specs) ;;
  (* Start the pipeline *)
  log "Calling Pipeline" [] ;;
  model <- Alpha.main_pipeline K model ;;
  (* Complete the pipeline *)
  log (py_repeat "*" 80) [] ;;
  log "END PIPELINE" [] ;;
  log (py_repeat "*" 80) [].

(** The same start-up, with a configuration file that gives [c] for the
    key ['scoring']. *)
Definition with_config_scoring (c : bool) (S : Startup) : Startup :=
  {| parse_args := parse_args S;
     get_model_config := fun d => set_scoring c (get_model_config S d);
     make_model := make_model S |}.

(** The same start-up, with a configuration file that gives [c] for the
    key ['scoring_mode']. *)
Definition with_config_scoring_mode (c : bool) (S : Startup) : Startup :=
  {| parse_args := parse_args S;
     get_model_config := fun d =>
       let s := get_model_config S d in
       Specs.mk (Specs.calibration s) (Specs.directory s) (Specs.drop s)
                (Specs.feature_selection s) (Specs.grid_search s) (Specs.model_type s)
                (Specs.rfe s) (Specs.sampling s) (Specs.scorer s) (Specs.scoring s) c
                (Specs.target s) (Specs.test_labels s);
     make_model := make_model S |}.

(** What a run of an entry point does around the run [pipeline] of its
    main pipeline: the start banner is logged once, the configuration is
    read once, from the directory of the command line; the end banner is
    logged when the pipeline returns and only then; the entry point
    returns nothing when the pipeline returns, and raises what the
    pipeline raises. *)
Definition entry_contract (cfg_dir : string) (pipeline : M Model.t) (run : M unit) : Prop :=
  logs "START PIPELINE" (trace run) = [[]] /\
  calls "get_model_config" (trace run) = [[VStr cfg_dir]] /\
  logs "END PIPELINE" (trace run)
  = match outcome pipeline with Ok _ => [[]] | Raise _ => [] end /\
  outcome run = match outcome pipeline with Ok _ => Ok tt | Raise e => Raise e end.

(** A trace without the banners of an entry point and without a read of
    the configuration. *)
Definition no_entry_events (t : list event) : Prop :=
  logs "START PIPELINE" t = [] /\ logs "END PIPELINE" t = [] /\
  calls "get_model_config" t = [].

(** A concrete start-up: the command line asks for scoring, the
    configuration file for training. *)
Module ToyEntry.
Definition score_on_the_command_line : Startup := {|
  parse_args := Args.mk "./config" true;
  get_model_config := fun _ => Toy.specs "roc_auc" "./model" false false false false;
  make_model := fun s => Toy.model s ["LOGR"] Toy.test
|}.
End ToyEntry.


(** ** The monad, step by step *)

Lemma bind_ok {A B} (c : M A) (k : A -> M B) a :
  outcome c = Ok a ->
  trace (bind c k) = trace c ++ trace (k a) /\ outcome (bind c k) = outcome (k a).
Proof. destruct c as [t [x|e]]; cbn; intros H; [by inversion H | done]. Qed.

Lemma bind_raise {A B} (c : M A) (k : A -> M B) e :
  outcome c = Raise e ->
  trace (bind c k) = trace c /\ outcome (bind c k) = Raise e.
Proof. destruct c as [t [x|e']]; cbn; intros H; [done | by inversion H]. Qed.

Lemma calls_app fn t1 t2 : calls fn (t1 ++ t2) = calls fn t1 ++ calls fn t2.
Proof. apply omap_app. Qed.

Lemma logs_app fmt t1 t2 : logs fmt (t1 ++ t2) = logs fmt t1 ++ logs fmt t2.
Proof. apply omap_app. Qed.

Lemma shape_pd_concat a b : (shape (pd_concat a b)).1 = ((shape a).1 + (shape b).1)%nat.
Proof. cbn. by rewrite length_app, !length_map. Qed.

Lemma shape_array_split_1 a k :
  (k <= (shape a).1)%nat -> (shape (array_split a k).1).1 = k.
Proof. cbn. rewrite length_take. lia. Qed.

Lemma shape_array_split_sum a k :
  ((shape (array_split a k).1).1 + (shape (array_split a k).2).1)%nat = (shape a).1.
Proof. cbn. rewrite length_take, length_drop. lia. Qed.

(** ** The data pipeline *)

#[local] Arguments pd_concat : simpl never.
#[local] Arguments array_split : simpl never.
#[local] Arguments np_unique : simpl never.
#[local] Arguments shape : simpl never.

(** The first steps of a data pipeline: everything up to the column test is
    run, the two tables after the drop are named, and the test is decided. *)
Ltac enter_data_pipeline K model :=
  destruct (Specs.model_type (Model.specs model));
  destruct (Specs.test_labels (Model.specs model)); cbn;
  generalize (drop_features K (get_data K model "train").1 (Specs.drop (Model.specs model)));
  generalize (drop_features K (get_data K model "test").1 (Specs.drop (Model.specs model)));
  intros X_test X_train;
  destruct (decide ((shape X_train).2 = (shape X_test).2)) as [E|E]; cbn.

Ltac solve_shape_contract :=
  repeat split; intros; try done; try congruence; eauto using shape_pd_concat.

Lemma main_data_pipeline_shape K model : shape_contract K model (Main.data_pipeline K model).
Proof.
  unfold shape_contract, Main.data_pipeline, dropped_train, dropped_test, shape_error.
  enter_data_pipeline K model; solve_shape_contract.
Qed.

Lemma alpha_data_pipeline_shape K model : shape_contract K model (Alpha.data_pipeline K model).
Proof.
  unfold shape_contract, Alpha.data_pipeline, dropped_train, dropped_test, shape_error.
  enter_data_pipeline K model; solve_shape_contract.
Qed.

(** C2: in both entry points the data pipeline raises the data-shape error,
    which names both column counts, if and only if the train and test
    tables have unequal column counts after the drop; with equal counts it
    returns and hands the concatenation of the two tables, all rows of both,
    to the first transform; with unequal counts nothing is handed on, so no
    table is cut to make the shapes agree. *)
Theorem C2_shape_error_iff_column_counts_differ (K : Collaborators) (model : Model.t) :
  shape_contract K model (Main.data_pipeline K model) /\
  shape_contract K model (Alpha.data_pipeline K model).
Proof. split; [apply main_data_pipeline_shape | apply alpha_data_pipeline_shape]. Qed.

Lemma split_snapshot (X : Table) k n :
  (shape X).1 = (k + n)%nat ->
  (shape (array_split X k).1).1 = k /\
  ((shape (array_split X k).1).1 + (shape (array_split X k).2).1 = k + n)%nat.
Proof.
  intros H. split; [apply shape_array_split_1; lia |].
  by rewrite shape_array_split_sum.
Qed.

Ltac solve_split_contract Hf Hi Hl :=
  split; [done | split; [done |]];
  repeat (constructor; [apply split_snapshot; rewrite ?Hl, ?Hi, ?Hf; apply shape_pd_concat |]);
  constructor.

Lemma main_data_pipeline_split K model :
  row_preserving K ->
  (shape (dropped_train K model)).2 = (shape (dropped_test K model)).2 ->
  split_contract K model (Main.data_pipeline K model).
Proof.
  intros (Hf & Hi & Hl).
  unfold split_contract, Main.data_pipeline, dropped_train, dropped_test.
  enter_data_pipeline K model; intros E'; try done; solve_split_contract Hf Hi Hl.
Qed.

Lemma alpha_data_pipeline_split K model :
  row_preserving K ->
  (shape (dropped_train K model)).2 = (shape (dropped_test K model)).2 ->
  split_contract K model (Alpha.data_pipeline K model).
Proof.
  intros (Hf & Hi & Hl).
  unfold split_contract, Alpha.data_pipeline, dropped_train, dropped_test.
  enter_data_pipeline K model; intros E'; try done; solve_split_contract Hf Hi Hl.
Qed.

(** C3: in both entry points, when each external transform returns as many
    rows as it is given, the split point recorded at the merge is the row
    count of the train table at that moment, each of the three snapshots
    that follow has a train table of exactly that many rows, and the train
    and test row counts of every snapshot add up to the same sum, the one
    of the two merged tables. *)
Theorem C3_split_point_and_row_sum (K : Collaborators) (model : Model.t) :
  row_preserving K ->
  (shape (dropped_train K model)).2 = (shape (dropped_test K model)).2 ->
  split_contract K model (Main.data_pipeline K model) /\
  split_contract K model (Alpha.data_pipeline K model).
Proof.
  intros HK E. split;
    [by apply main_data_pipeline_split | by apply alpha_data_pipeline_split].
Qed.

Lemma C3_split_point_and_row_sum_witness :
  split_contract Toy.K Toy.training (Main.data_pipeline Toy.K Toy.training) /\
  split_contract Toy.K Toy.training (Alpha.data_pipeline Toy.K Toy.training).
Proof.
  apply (C3_split_point_and_row_sum Toy.K Toy.training).
  - repeat split.
  - vm_compute. reflexivity.
Defined.

(** ** The per-algorithm loop *)

Lemma for_each_cons_ok {S} (body : string -> S -> M S) a l st st' :
  outcome (body a st) = Ok st' ->
  trace (for_each body (a :: l) st) = trace (body a st) ++ trace (for_each body l st') /\
  outcome (for_each body (a :: l) st) = outcome (for_each body l st').
Proof. intros H. cbn [for_each]. by apply bind_ok. Qed.

Lemma for_each_cons_raise {S} (body : string -> S -> M S) a l st e :
  outcome (body a st) = Raise e ->
  trace (for_each body (a :: l) st) = trace (body a st) /\
  outcome (for_each body (a :: l) st) = Raise e.
Proof. intros H. cbn [for_each]. by apply bind_raise. Qed.

(** All the events of a loop are events of its iterations. *)
Lemma for_each_events {S} (P : event -> Prop) (body : string -> S -> M S) l :
  (forall a st, Forall P (trace (body a st))) ->
  forall st, Forall P (trace (for_each body l st)).
Proof.
  intros Hbody. induction l as [|a l IH]; intros st; [constructor |].
  destruct (outcome (body a st)) as [st'|e] eqn:Hout.
  - destruct (for_each_cons_ok body a l st st' Hout) as [-> _].
    apply Forall_app. split; [apply Hbody | apply IH].
  - destruct (for_each_cons_raise body a l st e Hout) as [-> _]. apply Hbody.
Qed.

Lemma only_events_calls fmts fns fn t :
  only_events fmts fns t -> existsb (String.eqb fn) fns = false -> calls fn t = [].
Proof.
  intros Ht Hfn. induction Ht as [|e t He Ht IH]; [done |].
  destruct e as [fmt args|g args]; cbn; [done |].
  destruct (String.eqb_spec g fn) as [->|Hne]; [| apply IH].
  apply not_true_iff_false in Hfn. destruct Hfn.
  apply existsb_exists. exists fn. split; [by apply list_elem_of_In | apply String.eqb_refl].
Qed.

Lemma only_events_logs fmts fns fmt t :
  only_events fmts fns t -> existsb (String.eqb fmt) fmts = false -> logs fmt t = [].
Proof.
  intros Ht Hfmt. induction Ht as [|e t He Ht IH]; [done |].
  destruct e as [f args|g args]; cbn; [| done].
  destruct (String.eqb_spec f fmt) as [->|Hne]; [| apply IH].
  apply not_true_iff_false in Hfmt. destruct Hfmt.
  apply existsb_exists. exists fmt. split; [by apply list_elem_of_In | apply String.eqb_refl].
Qed.

(** An iteration, run through: the cases of the registry lookup, of the
    locals and of every test. *)
Ltac run_iteration :=
  repeat (cbn; match goal with
               | |- context [match ?o with Some _ => _ | None => _ end] => destruct o
               | |- context [if ?b then _ else _] => destruct b
               end); cbn.

Ltac enter_iteration :=
  unfold algo_iteration, select_estimator, recursive_elimination, read_local, model_to_fit,
    resolved.

Lemma iteration_events K select rfe grid_search calibration estimators algo st :
  only_events loop_logs loop_calls
    (trace (algo_iteration K select rfe grid_search calibration estimators algo st)).
Proof.
  destruct st as [m [o1 o2 o3]]. enter_iteration. run_iteration.
  all: unfold only_events, loop_logs, loop_calls; repeat constructor.
Qed.

(** An iteration for an algorithm of the registry runs to its end, whatever
    the locals were, and leaves them bound to that algorithm's entry. *)
Lemma iteration_resolved K select rfe grid_search calibration estimators algo m L e :
  estimators !! algo = Some e ->
  let run := algo_iteration K select rfe grid_search calibration estimators algo (m, L) in
  exists m', outcome run = Ok (m', resolved e) /\
    omap algo_of (calls "make_predictions" (trace run)) = [algo] /\
    calls "first_fit" (trace run)
    = [[VModel (model_to_fit K select m); VStr algo; VEst (Estimator.estimator e)]] /\
    (keeps_algolist K -> Model.algolist m' = Model.algolist m).
Proof.
  intros H. cbn zeta. enter_iteration. rewrite H. run_iteration.
  all: eexists; split; [reflexivity |]; split; [reflexivity |]; split; [reflexivity |].
  all: intros (H1 & H2 & H3 & H4 & H5 & H6 & H7 & H8 & H9).
  all: by rewrite ?H9, ?H8, ?H7, ?H6, ?H5, ?H4.
Qed.

(** An iteration for an algorithm the registry does not have, with the
    locals bound by an earlier iteration: it is not skipped; it runs to its
    end on the estimator of the earlier algorithm. *)
Lemma iteration_stale K select rfe grid_search calibration estimators algo m L :
  estimators !! algo = None -> bound L ->
  let run := algo_iteration K select rfe grid_search calibration estimators algo (m, L) in
  exists m' est, outcome run = Ok (m', L) /\
    loc_est L = Some est /\
    logs "Algorithm %s not found" (trace run) = [[VStr algo]] /\
    omap algo_of (calls "make_predictions" (trace run)) = [algo] /\
    calls "first_fit" (trace run) = [[VModel (model_to_fit K select m); VStr algo; VEst est]] /\
    (keeps_algolist K -> Model.algolist m' = Model.algolist m).
Proof.
  intros H ([e1 H1] & [s H2] & [e3 H3]). destruct L as [o1 o2 o3]. cbn in H1, H2, H3. subst.
  cbn zeta. enter_iteration. rewrite H. run_iteration.
  all: do 2 eexists; split; [reflexivity |]; split; [reflexivity |]; split; [reflexivity |].
  all: split; [reflexivity |]; split; [reflexivity |].
  all: intros (H1 & H2 & H3 & H4 & H5 & H6 & H7 & H8 & H9).
  all: by rewrite ?H9, ?H8, ?H7, ?H6, ?H5, ?H4.
Qed.

(** An iteration for an algorithm the registry does not have, with [est]
    still unbound: the handler logs, and the initial fit raises on the
    read of [est].  Nothing is fitted and no prediction is made. *)
Lemma iteration_unbound K sel rfe grid_search calibration estimators algo m L :
  estimators !! algo = None -> loc_est L = None ->
  let run := algo_iteration K sel rfe grid_search calibration estimators algo (m, L) in
  outcome run = Raise (UnboundLocalError "est") /\
  logs "Algorithm %s not found" (trace run) = [[VStr algo]] /\
  calls "select_features" (trace run) = (if sel then [[VModel m]] else []) /\
  calls "first_fit" (trace run) = [] /\
  calls "make_predictions" (trace run) = [].
Proof.
  intros H H3. destruct L as [o1 o2 o3]. cbn in H3. subst.
  cbn zeta. enter_iteration. rewrite H. destruct sel; cbn; done.
Qed.

Lemma remove_dups_id (l : list string) : NoDup l -> remove_dups l = l.
Proof.
induction 1 as [|x l Hx Hl IH]; [done |].
cbn. destruct (decide_rel elem_of x l); [done | by rewrite IH].
Qed.

Lemma resolved_bound e : bound (resolved e).
Proof. repeat split; eexists; reflexivity. Qed.

Section loop.
Context (K : Collaborators) (sel rfe grid_search calibration : bool)
        (estimators : gmap string Estimator.t).

Local Abbreviation body := (algo_iteration K sel rfe grid_search calibration estimators).

(** Once the locals are bound every iteration runs to its end: the loop
    returns, and it makes predictions for every algorithm of the list,
    in the registry or not. *)
Lemma loop_bound l : forall m L,
  bound L ->
  exists m' L', outcome (for_each body l (m, L)) = Ok (m', L') /\
    omap algo_of (calls "make_predictions" (trace (for_each body l (m, L)))) = l /\
    (keeps_algolist K -> Model.algolist m' = Model.algolist m).
Proof.
  induction l as [|a l IH]; intros m L HL; [by exists m, L |].
  assert (exists m1 L1, outcome (body a (m, L)) = Ok (m1, L1) /\ bound L1 /\
            omap algo_of (calls "make_predictions" (trace (body a (m, L)))) = [a] /\
            (keeps_algolist K -> Model.algolist m1 = Model.algolist m))
    as (m1 & L1 & Hout & HL1 & Hart & Halg).
  { destruct (estimators !! a) as [e|] eqn:Ha.
    - destruct (iteration_resolved K sel rfe grid_search calibration _ _ m L e Ha)
        as (m1 & H1 & H2 & _ & H4).
      exists m1, (resolved e). eauto using resolved_bound.
    - destruct (iteration_stale K sel rfe grid_search calibration _ _ m L Ha HL)
        as (m1 & est & H1 & _ & _ & H2 & _ & H4).
      exists m1, L. eauto. }
  destruct (IH m1 L1 HL1) as (m' & L' & Hout' & Hart' & Halg').
  destruct (for_each_cons_ok body a l (m, L) (m1, L1) Hout) as [-> ->].
  exists m', L'. split; [done |]. split.
  - by rewrite calls_app, omap_app, Hart, Hart'.
  - intros HK. by rewrite Halg', Halg.
Qed.

(** The loop as the pipelines start it, with the locals unbound: it
    returns with predictions made for every algorithm of the list, or
    the first algorithm is not in the registry and the loop raises in its
    first iteration, before anything is fitted. *)
Lemma loop_unbound l m :
  let run := for_each body l (m, unbound) in
  (exists m' L', outcome run = Ok (m', L') /\
     omap algo_of (calls "make_predictions" (trace run)) = l /\
     (keeps_algolist K -> Model.algolist m' = Model.algolist m)) \/
  (outcome run = Raise (UnboundLocalError "est") /\
   calls "make_predictions" (trace run) = [] /\
   calls "first_fit" (trace run) = [] /\
   exists a l', l = a :: l' /\ estimators !! a = None /\
     logs "Algorithm %s not found" (trace run) = [[VStr a]]).
Proof.
  destruct l as [|a l]; [left; by exists m, unbound |].
  destruct (estimators !! a) as [e|] eqn:Ha.
  - left.
    destruct (iteration_resolved K sel rfe grid_search calibration _ _ m unbound e Ha)
      as (m1 & H1 & H2 & _ & H4).
    destruct (loop_bound l m1 (resolved e) (resolved_bound e)) as (m' & L' & H1' & H2' & H4').
    cbn zeta. destruct (for_each_cons_ok body a l (m, unbound) _ H1) as [-> ->].
    exists m', L'. split; [done |]. split.
    + by rewrite calls_app, omap_app, H2, H2'.
    + intros HK. by rewrite H4', H4.
  - right.
    destruct (iteration_unbound K sel rfe grid_search calibration _ _ m unbound Ha eq_refl)
      as (H1 & H2 & _ & H3 & H4).
    cbn zeta. destruct (for_each_cons_raise body a l (m, unbound) _ H1) as [-> ->].
    eauto 10.
Qed.

Lemma loop_events l st : only_events loop_logs loop_calls (trace (for_each body l st)).
Proof. apply for_each_events. intros a st'. apply iteration_events. Qed.

End loop.

(** ** The model pipelines have the common form *)

Ltac solve_form :=
  cbn; (split; [| split; [| split; [| split; [| split; [| reflexivity]]]]]);
  [ unfold only_events, before_loop_logs, before_loop_calls; repeat constructor
  | reflexivity
  | try reflexivity; intros (H1 & H2 & H3 & _); by rewrite ?H3, ?H2, ?H1
  | cbn; intuition congruence
  | reflexivity ].

Lemma main_model_pipeline_form K model :
  model_pipeline_form K model (Specs.feature_selection (Model.specs model))
    (Main.model_pipeline K model).
Proof.
  unfold model_pipeline_form, Main.model_pipeline, check_scorer, after_loop.
  destruct (Specs.model_type (Model.specs model)); [destruct (Specs.sampling (Model.specs model)) |].
  - exists (get_sample_weights K (sample_data K (shuffle_data K model))),
      [Log "MODEL PIPELINE" []; Call "shuffle_data" [VModel model];
       Call "sample_data" [VModel (shuffle_data K model)];
       Call "get_sample_weights" [VModel (sample_data K (shuffle_data K model))];
       Log "Getting All Estimators" [];
       Call "get_estimators"
            [VModel (get_sample_weights K (sample_data K (shuffle_data K model)))]].
    solve_form.
  - exists (get_sample_weights K (shuffle_data K model)),
      [Log "MODEL PIPELINE" []; Call "shuffle_data" [VModel model];
       Log "Skipping Sampling" [];
       Call "get_sample_weights" [VModel (shuffle_data K model)];
       Log "Getting All Estimators" [];
       Call "get_estimators" [VModel (get_sample_weights K (shuffle_data K model))]].
    solve_form.
  - exists (shuffle_data K model),
      [Log "MODEL PIPELINE" []; Call "shuffle_data" [VModel model];
       Log "Getting All Estimators" [];
       Call "get_estimators" [VModel (shuffle_data K model)]].
    solve_form.
Qed.

Lemma alpha_model_pipeline_form K model :
  model_pipeline_form K model
    (Specs.feature_selection (Model.specs model) && negb (Specs.grid_search (Model.specs model)))
    (Alpha.model_pipeline K model).
Proof.
  unfold model_pipeline_form, Alpha.model_pipeline, check_scorer, after_loop.
  destruct (Specs.sampling (Model.specs model)).
  - exists (get_sample_weights K (sample_data K (shuffle_data K model))),
      [Log "MODEL PIPELINE" []; Call "shuffle_data" [VModel model];
       Call "sample_data" [VModel (shuffle_data K model)];
       Call "get_sample_weights" [VModel (sample_data K (shuffle_data K model))];
       Log "Getting All Estimators" [];
       Call "get_estimators"
            [VModel (get_sample_weights K (sample_data K (shuffle_data K model)))]].
    solve_form.
  - exists (get_sample_weights K (shuffle_data K model)),
      [Log "MODEL PIPELINE" []; Call "shuffle_data" [VModel model];
       Log "Skipping Sampling" [];
       Call "get_sample_weights" [VModel (shuffle_data K model)];
       Log "Getting All Estimators" [];
       Call "get_estimators" [VModel (get_sample_weights K (shuffle_data K model))]].
    solve_form.
Qed.

(** ** Reading a trace piece by piece *)

Lemma calls_cons_log fn fmt args t : calls fn (Log fmt args :: t) = calls fn t.
Proof. reflexivity. Qed.

Lemma calls_cons_call fn g args t :
  calls fn (Call g args :: t) = if String.eqb g fn then args :: calls fn t else calls fn t.
Proof. unfold calls. cbn. by destruct (String.eqb g fn). Qed.

Lemma logs_cons_call fmt g args t : logs fmt (Call g args :: t) = logs fmt t.
Proof. reflexivity. Qed.

Lemma logs_cons_log fmt f args t :
  logs fmt (Log f args :: t) = if String.eqb f fmt then args :: logs fmt t else logs fmt t.
Proof. unfold logs. cbn. by destruct (String.eqb f fmt). Qed.

#[local] Arguments calls : simpl never.
#[local] Arguments logs : simpl never.

Ltac read_trace :=
  repeat (progress (rewrite ?calls_app, ?logs_app, ?calls_cons_log, ?calls_cons_call,
                      ?logs_cons_log, ?logs_cons_call);
          simpl (String.eqb _ _); cbv iota); cbn [fst snd].

(** ** After the loop *)

Lemma after_loop_events K test_labels m :
  only_events [] after_loop_calls (trace (after_loop K test_labels m)).
Proof.
  unfold after_loop. destruct (decide _); destruct test_labels; cbn.
  all: unfold only_events, after_loop_calls; repeat constructor.
Qed.

Lemma after_loop_returns K test_labels m :
  exists m', outcome (after_loop K test_labels m) = Ok m'.
Proof. unfold after_loop. destruct (decide _); destruct test_labels; cbn; eauto. Qed.

Lemma after_loop_blend K test_labels m :
  calls "predict_blend" (trace (after_loop K test_labels m))
  = if decide (1 < length (Model.algolist m)) then [[VModel m]] else [].
Proof. unfold after_loop. destruct (decide _); destruct test_labels; reflexivity. Qed.

(** ** Runs of the common form *)

Section form.
Context (K : Collaborators) (model : Model.t) (sel : bool) (run : M Model.t).
Context (Hform : model_pipeline_form K model sel run).

(** The scorer is not in the table: the run stops before the loop. *)
Lemma form_no_scorer :
  scorers K !! Specs.scorer (Model.specs model) = None ->
  outcome run
  = Raise (KeyError [VStr "Scorer function %s not found"; VStr (Specs.scorer (Model.specs model))]) /\
  only_events before_loop_logs before_loop_calls (trace run).
Proof.
  destruct Hform as (m0 & before & Hev & _ & _ & _ & _ & ->).
  intros Hs. unfold check_scorer. rewrite Hs. cbn. by rewrite app_nil_r.
Qed.

(** The scorer is in the table: the run is the steps before the loop, the
    loop, and, when the loop returns, the steps after it. *)
Lemma form_loop :
  is_Some (scorers K !! Specs.scorer (Model.specs model)) ->
  exists m0 before,
    only_events before_loop_logs before_loop_calls before /\
    logs "MODEL PIPELINE" before = [[]] /\
    (keeps_algolist K -> Model.algolist m0 = Model.algolist model) /\
    threaded K model before /\
    last_model K model before = m0 /\
    let loop := for_each (algo_iteration K sel (Specs.rfe (Model.specs model))
                            (Specs.grid_search (Model.specs model))
                            (Specs.calibration (Model.specs model)) (get_estimators K m0))
                         (Model.algolist m0) (m0, unbound) in
    match outcome loop with
    | Ok st =>
        trace run = before ++ Log "Selecting Models" [] :: trace loop
                    ++ trace (after_loop K (Specs.test_labels (Model.specs model)) st.1) /\
        outcome run = outcome (after_loop K (Specs.test_labels (Model.specs model)) st.1)
    | Raise e =>
        trace run = before ++ Log "Selecting Models" [] :: trace loop /\
        outcome run = Raise e
    end.
Proof.
  destruct Hform as (m0 & before & Hev & Hlog & Halg & Hthr & Hlast & ->).
  intros [s Hs]. exists m0, before. do 5 (split; [done |]).
  unfold check_scorer. rewrite Hs. cbn zeta.
  destruct (for_each _ _ _) as [t [st|e]]; [| done].
  cbn. by destruct (after_loop _ _ _).
Qed.

End form.


(** ** Feature selection and the threading of the model *)

Lemma iteration_selects K sel rfe grid_search calibration estimators algo m L :
  let run := algo_iteration K sel rfe grid_search calibration estimators algo (m, L) in
  calls "select_features" (trace run) = (if sel then [[VModel m]] else []) /\
  logs "Algorithm: %s" (trace run) = [[VStr algo]].
Proof.
  destruct L as [o1 o2 o3]. cbn zeta. enter_iteration. run_iteration. all: done.
Qed.

Lemma loop_selects K sel rfe grid_search calibration estimators l : forall m L,
  let run := for_each (algo_iteration K sel rfe grid_search calibration estimators) l (m, L) in
  length (calls "select_features" (trace run))
  = if sel then length (logs "Algorithm: %s" (trace run)) else 0%nat.
Proof.
  induction l as [|a l IH]; intros m L; cbn zeta; [by destruct sel |].
  destruct (iteration_selects K sel rfe grid_search calibration estimators a m L) as [Hs Hl].
  destruct (outcome (algo_iteration K sel rfe grid_search calibration estimators a (m, L)))
    as [[m1 L1]|e] eqn:Hout.
  - destruct (for_each_cons_ok _ a l _ _ Hout) as [-> _].
    rewrite calls_app, logs_app, !length_app, Hs, Hl, (IH m1 L1). by destruct sel.
  - destruct (for_each_cons_raise _ a l _ _ Hout) as [-> _].
    rewrite Hs, Hl. by destruct sel.
Qed.

Lemma threaded_app K t1 : forall m t2,
  threaded K m (t1 ++ t2) <-> threaded K m t1 /\ threaded K (last_model K m t1) t2.
Proof.
  induction t1 as [|e t1 IH]; intros m t2; cbn; [tauto |].
  rewrite IH. tauto.
Qed.

Lemma last_model_app K t1 : forall m t2,
  last_model K m (t1 ++ t2) = last_model K (last_model K m t1) t2.
Proof. induction t1 as [|e t1 IH]; intros m t2; cbn; [done | apply IH]. Qed.

Ltac solve_threaded :=
  cbn; repeat split; try done; intros ? [= <-]; reflexivity.

Lemma iteration_threaded K sel rfe grid_search calibration estimators algo m L :
  let run := algo_iteration K sel rfe grid_search calibration estimators algo (m, L) in
  threaded K m (trace run) /\
  forall m' L', outcome run = Ok (m', L') -> last_model K m (trace run) = m'.
Proof.
  destruct L as [o1 o2 o3]. cbn zeta. enter_iteration. run_iteration.
  all: split; [solve_threaded | intros m' L' [= <- <-] || intros m' L' [=]; reflexivity].
Qed.

Lemma loop_threaded K sel rfe grid_search calibration estimators l : forall m L,
  let run := for_each (algo_iteration K sel rfe grid_search calibration estimators) l (m, L) in
  threaded K m (trace run) /\
  forall m' L', outcome run = Ok (m', L') -> last_model K m (trace run) = m'.
Proof.
  induction l as [|a l IH]; intros m L; cbn zeta.
  { split; [done | by intros m' L' [= <- <-]]. }
  destruct (iteration_threaded K sel rfe grid_search calibration estimators a m L) as [Ht Hm].
  destruct (outcome (algo_iteration K sel rfe grid_search calibration estimators a (m, L)))
    as [[m1 L1]|e] eqn:Hout.
  - destruct (for_each_cons_ok _ a l _ _ Hout) as [-> ->].
    destruct (IH m1 L1) as [Ht' Hm']. rewrite threaded_app, last_model_app, (Hm m1 L1 eq_refl).
    split; [done | apply Hm'].
  - destruct (for_each_cons_raise _ a l _ _ Hout) as [-> ->]. split; [done | by intros m' L' [=]].
Qed.

Lemma after_loop_threaded K test_labels m : threaded K m (trace (after_loop K test_labels m)).
Proof.
  unfold after_loop. destruct (decide _); destruct test_labels; solve_threaded.
Qed.

Section form_consequences.
Context (K : Collaborators) (model : Model.t) (sel : bool) (run : M Model.t).
Context (Hform : model_pipeline_form K model sel run).

(** One model is threaded through a whole run. *)
Lemma form_threaded : threaded K model (trace run).
Proof.
  destruct (scorers K !! Specs.scorer (Model.specs model)) as [s|] eqn:Hs.
  2: { destruct Hform as (m0 & before & _ & _ & _ & Hthr & _ & ->).
       unfold check_scorer. rewrite Hs. cbn. by rewrite app_nil_r. }
  destruct (form_loop K model sel run Hform (mk_is_Some _ _ Hs))
    as (m0 & before & _ & _ & _ & Hthr & Hlast & Hrun).
  cbn zeta in Hrun.
  destruct (loop_threaded K sel (Specs.rfe (Model.specs model))
              (Specs.grid_search (Model.specs model)) (Specs.calibration (Model.specs model))
              (get_estimators K m0) (Model.algolist m0) m0 unbound) as [Ht Hm].
  destruct (outcome (for_each _ _ _)) as [[m' L']|e] eqn:Hout; destruct Hrun as [-> _].
  - rewrite threaded_app. split; [done |]. rewrite Hlast. cbn [threaded].
    split; [done |]. cbn. rewrite threaded_app. split; [done |].
    rewrite (Hm m' L' eq_refl). apply after_loop_threaded.
  - rewrite threaded_app. split; [done |]. rewrite Hlast. cbn [threaded]. by split.
Qed.

(** The selector is called once in every iteration that is begun when the
    feature-selection test holds, and never when it does not. *)
Lemma form_selects :
  length (calls "select_features" (trace run))
  = if sel then length (logs "Algorithm: %s" (trace run)) else 0%nat.
Proof.
  destruct (scorers K !! Specs.scorer (Model.specs model)) as [s|] eqn:Hs.
  2: { destruct (form_no_scorer K model sel run Hform Hs) as [_ Hev].
       rewrite (only_events_calls _ _ "select_features" _ Hev eq_refl).
       rewrite (only_events_logs _ _ "Algorithm: %s" _ Hev eq_refl). by destruct sel. }
  destruct (form_loop K model sel run Hform (mk_is_Some _ _ Hs))
    as (m0 & before & Hev & _ & _ & _ & _ & Hrun).
  cbn zeta in Hrun.
  pose proof (loop_selects K sel (Specs.rfe (Model.specs model))
              (Specs.grid_search (Model.specs model)) (Specs.calibration (Model.specs model))
              (get_estimators K m0) (Model.algolist m0) m0 unbound) as Hsel.
  cbn zeta in Hsel.
  destruct (outcome (for_each _ _ _)) as [[m' L']|e] eqn:Hout; destruct Hrun as [-> _];
    read_trace.
  - pose proof (after_loop_events K (Specs.test_labels (Model.specs model)) m') as Haev.
    rewrite (only_events_calls _ _ "select_features" _ Hev eq_refl).
    rewrite (only_events_logs _ _ "Algorithm: %s" _ Hev eq_refl).
    rewrite (only_events_calls _ _ "select_features" _ Haev eq_refl).
    rewrite (only_events_logs _ _ "Algorithm: %s" _ Haev eq_refl).
    by rewrite !app_nil_r.
  - rewrite (only_events_calls _ _ "select_features" _ Hev eq_refl).
    by rewrite (only_events_logs _ _ "Algorithm: %s" _ Hev eq_refl).
Qed.

End form_consequences.

(** ** The loop does not skip *)

Lemma form_unresolved_first K model sel run a l :
  model_pipeline_form K model sel run ->
  keeps_algolist K ->
  Model.algolist model = a :: l ->
  (forall m, get_estimators K m !! a = None) ->
  is_Some (scorers K !! Specs.scorer (Model.specs model)) ->
  aborts_on_unbound_est a run.
Proof.
  intros Hform HK Hl Ha Hs.
  destruct (form_loop K model sel run Hform Hs) as (m0 & before & Hev & _ & Halg & _ & _ & Hrun).
  cbn zeta in Hrun. rewrite (Halg HK), Hl in Hrun.
  destruct (iteration_unbound K sel (Specs.rfe (Model.specs model))
              (Specs.grid_search (Model.specs model)) (Specs.calibration (Model.specs model))
              (get_estimators K m0) a m0 unbound (Ha m0) eq_refl) as (H1 & H2 & _ & H3 & H4).
  destruct (for_each_cons_raise _ a l _ _ H1) as [Ht Ho].
  unfold aborts_on_unbound_est.
  rewrite Ho in Hrun. destruct Hrun as [-> ->]. rewrite Ht.
  pose proof (iteration_events K sel (Specs.rfe (Model.specs model))
              (Specs.grid_search (Model.specs model)) (Specs.calibration (Model.specs model))
              (get_estimators K m0) a (m0, unbound)) as Hiev.
  read_trace.
  rewrite H2, H3, H4.
  rewrite (only_events_logs _ _ "Algorithm %s not found" _ Hev eq_refl).
  rewrite (only_events_calls _ _ "first_fit" _ Hev eq_refl).
  rewrite (only_events_calls _ _ "make_predictions" _ Hev eq_refl).
  rewrite (only_events_calls _ _ "save_model" _ Hev eq_refl).
  by rewrite (only_events_calls _ _ "save_model" _ Hiev eq_refl).
Qed.

(** C1, as the code has it: in both entry points, when the first algorithm
    of the list is not in the registry, the handler logs it and the
    iteration goes on to the initial fit, where the read of [est] raises;
    the exception leaves the loop and the pipeline, and nothing is fitted,
    predicted or saved, for this algorithm or for the ones after it. *)
Theorem C1_unresolved_first_algorithm_aborts_the_run
    (K : Collaborators) (model : Model.t) (a : string) (l : list string) :
  keeps_algolist K ->
  Model.algolist model = a :: l ->
  (forall m, get_estimators K m !! a = None) ->
  is_Some (scorers K !! Specs.scorer (Model.specs model)) ->
  aborts_on_unbound_est a (Main.model_pipeline K model) /\
  aborts_on_unbound_est a (Alpha.model_pipeline K model).
Proof.
  intros HK Hl Ha Hs. split.
  - by eapply form_unresolved_first; [apply main_model_pipeline_form | ..].
  - by eapply form_unresolved_first; [apply alpha_model_pipeline_form | ..].
Qed.

Lemma C1_unresolved_first_algorithm_aborts_the_run_witness :
  aborts_on_unbound_est "XGB" (Main.model_pipeline Toy.K Toy.unresolved_first) /\
  aborts_on_unbound_est "XGB" (Alpha.model_pipeline Toy.K Toy.unresolved_first).
Proof.
  apply (C1_unresolved_first_algorithm_aborts_the_run Toy.K Toy.unresolved_first "XGB" ["LOGR"]).
  - repeat split.
  - reflexivity.
  - intros m. vm_compute. reflexivity.
  - vm_compute. eexists. reflexivity.
Defined.

(** The other order: the algorithm that is not in the registry comes
    second.  It is not skipped either: it is fitted, on the estimator of
    the first algorithm, and predictions are made for it. *)
Lemma unresolved_second_algorithm_is_fitted :
  calls "first_fit" (trace (for_each (algo_iteration Toy.K false false false false Toy.registry)
                                     ["LOGR"; "XGB"] (Toy.unresolved_second, unbound)))
  = [[VModel Toy.unresolved_second; VStr "LOGR"; VEst (SkEstimator "LogisticRegression")];
     [VModel (Toy.add_preds (Toy.add_estimator Toy.unresolved_second "LOGR"
                               (SkEstimator "LogisticRegression")) "LOGR" [0; 1]%Z);
      VStr "XGB"; VEst (SkEstimator "LogisticRegression")]] /\
  algorithms_with_artifacts (trace (Main.model_pipeline Toy.K Toy.unresolved_second))
  = ["LOGR"; "XGB"].
Proof. split; vm_compute; reflexivity. Qed.

(** ** The scorer test *)

Lemma form_unknown_scorer K model sel run :
  model_pipeline_form K model sel run ->
  scorers K !! Specs.scorer (Model.specs model) = None ->
  aborts_before_loop (Specs.scorer (Model.specs model)) run.
Proof.
  intros Hform Hs. destruct (form_no_scorer K model sel run Hform Hs) as [Ho Hev].
  unfold aborts_before_loop. split; [done |]. split; [done |].
  rewrite (only_events_logs _ _ "Algorithm: %s" _ Hev eq_refl).
  rewrite (only_events_calls _ _ "first_fit" _ Hev eq_refl).
  rewrite (only_events_calls _ _ "make_predictions" _ Hev eq_refl).
  by rewrite (only_events_calls _ _ "save_model" _ Hev eq_refl).
Qed.

(** C8: in both entry points, when the configured scorer name is not in
    the table of scorers the model pipeline raises [KeyError] before the
    loop: no iteration is begun, no algorithm is fitted, no prediction is
    made and no model is saved. *)
Theorem C8_unknown_scorer_aborts_before_the_loop (K : Collaborators) (model : Model.t) :
  scorers K !! Specs.scorer (Model.specs model) = None ->
  aborts_before_loop (Specs.scorer (Model.specs model)) (Main.model_pipeline K model) /\
  aborts_before_loop (Specs.scorer (Model.specs model)) (Alpha.model_pipeline K model).
Proof.
  intros Hs. split.
  - by eapply form_unknown_scorer; [apply main_model_pipeline_form |].
  - by eapply form_unknown_scorer; [apply alpha_model_pipeline_form |].
Qed.

Lemma C8_unknown_scorer_aborts_before_the_loop_witness :
  aborts_before_loop "f7" (Main.model_pipeline Toy.K Toy.unknown_scorer) /\
  aborts_before_loop "f7" (Alpha.model_pipeline Toy.K Toy.unknown_scorer).
Proof.
  apply (C8_unknown_scorer_aborts_before_the_loop Toy.K Toy.unknown_scorer).
  vm_compute. reflexivity.
Defined.

Lemma filter_resolved_id (estimators : gmap string Estimator.t) (l : list string) :
  (forall algo, algo ∈ l -> is_Some (estimators !! algo)) ->
  filter (fun algo => is_Some (estimators !! algo)) l = l.
Proof.
  induction l as [|a l IH]; intros Hl; [done |].
  rewrite filter_cons_True by (apply Hl; left).
  f_equal. apply IH. intros algo Halgo. apply Hl. by right.
Qed.

Lemma form_blend K model sel run :
  model_pipeline_form K model sel run -> keeps_algolist K -> blend_contract K model run.
Proof.
  intros Hform HK. unfold blend_contract, resolved_with_artifacts, algorithms_with_artifacts.
  destruct (scorers K !! Specs.scorer (Model.specs model)) as [s|] eqn:Hs.
  2: { destruct (form_no_scorer K model sel run Hform Hs) as [Ho Hev].
       rewrite (only_events_calls _ _ "predict_blend" _ Hev eq_refl), Ho.
       split; [split; [done | by intros [[m Hm] _]] |].
       split; [done | by intros [x Hx]]. }
  destruct (form_loop K model sel run Hform (mk_is_Some _ _ Hs))
    as (m0 & before & Hev & _ & Halg & _ & _ & Hrun).
  specialize (Halg HK). cbn zeta in Hrun.
  pose proof (loop_unbound K sel (Specs.rfe (Model.specs model))
                (Specs.grid_search (Model.specs model)) (Specs.calibration (Model.specs model))
                (get_estimators K m0) (Model.algolist m0) m0) as Hloop.
  pose proof (loop_events K sel (Specs.rfe (Model.specs model))
                (Specs.grid_search (Model.specs model)) (Specs.calibration (Model.specs model))
                (get_estimators K m0) (Model.algolist m0) (m0, unbound)) as Hlev.
  cbn zeta in Hloop.
  destruct Hloop as [(m' & L' & Hout & Hart & Hal) | (Hout & Hmp & _ & a & l' & Hl & Ha & _)];
    rewrite Hout in Hrun; destruct Hrun as [-> Ho]; read_trace.
  - specialize (Hal HK).
    pose proof (after_loop_events K (Specs.test_labels (Model.specs model)) m') as Haev.
    destruct (after_loop_returns K (Specs.test_labels (Model.specs model)) m') as [m Hm].
    rewrite (only_events_calls _ _ "predict_blend" _ Hev eq_refl).
    rewrite (only_events_calls _ _ "make_predictions" _ Hev eq_refl).
    rewrite (only_events_calls _ _ "predict_blend" _ Hlev eq_refl).
    rewrite (only_events_calls _ _ "make_predictions" _ Haev eq_refl).
    rewrite after_loop_blend, ?app_nil_r. cbn [app].
    cbn [fst] in Ho. rewrite Hart, Hal, Halg, Ho, Hm.
    split; [| split].
    + destruct (decide _) as [Hlt|Hlt]; split; try done.
      * intros _. split; [by exists m | lia].
      * intros [_ Hge]. lia.
    + intros Hone. destruct (decide _) as [Hlt|Hlt]; [lia | done].
    + intros _ Hnd Hall. rewrite (remove_dups_id _ Hnd).
      apply filter_resolved_id. intros algo. apply Hall.
  - rewrite (only_events_calls _ _ "predict_blend" _ Hev eq_refl).
    rewrite (only_events_calls _ _ "predict_blend" _ Hlev eq_refl), Ho.
    split; [split; [done | by intros [[m Hm] _]] |].
    split; [done |].
    intros _ _ Hall. exfalso.
    assert (Hin : a ∈ Model.algolist model) by (rewrite <- Halg, Hl; left).
    destruct (Hall m0 a Hin) as [e He]. congruence.
Qed.

(** ** Blending *)

(** C4 as stated fails at a list of two algorithms whose second one is not
    in the registry: one algorithm of the registry got artifacts, and both
    model pipelines call [predict_blend]. *)
Lemma C4_blending_with_one_resolved_algorithm :
  Model.algolist Toy.unresolved_second = ["LOGR"; "XGB"] /\
  Toy.registry !! "XGB" = None /\
  resolved_with_artifacts Toy.registry (trace (Main.model_pipeline Toy.K Toy.unresolved_second))
  = ["LOGR"] /\
  resolved_with_artifacts Toy.registry (trace (Alpha.model_pipeline Toy.K Toy.unresolved_second))
  = ["LOGR"] /\
  length (calls "predict_blend" (trace (Main.model_pipeline Toy.K Toy.unresolved_second)))
  = 1%nat /\
  length (calls "predict_blend" (trace (Alpha.model_pipeline Toy.K Toy.unresolved_second)))
  = 1%nat /\
  ~ blend_on_artifacts Toy.registry (Main.model_pipeline Toy.K Toy.unresolved_second) /\
  ~ blend_on_artifacts Toy.registry (Alpha.model_pipeline Toy.K Toy.unresolved_second).
Proof.
  assert (Hm : resolved_with_artifacts Toy.registry
                 (trace (Main.model_pipeline Toy.K Toy.unresolved_second)) = ["LOGR"])
    by (vm_compute; reflexivity).
  assert (Ha : resolved_with_artifacts Toy.registry
                 (trace (Alpha.model_pipeline Toy.K Toy.unresolved_second)) = ["LOGR"])
    by (vm_compute; reflexivity).
  assert (Hbm : length (calls "predict_blend"
                  (trace (Main.model_pipeline Toy.K Toy.unresolved_second))) = 1%nat)
    by (vm_compute; reflexivity).
  assert (Hba : length (calls "predict_blend"
                  (trace (Alpha.model_pipeline Toy.K Toy.unresolved_second))) = 1%nat)
    by (vm_compute; reflexivity).
  do 6 (split; [done |]).
  split; intros [_ Hone].
  - rewrite Hm in Hone. rewrite (Hone eq_refl) in Hbm. discriminate.
  - rewrite Ha in Hone. rewrite (Hone eq_refl) in Hba. discriminate.
Qed.

(** C4, amended: in both entry points the blending test is on the length
    of the configured [model.algolist], not on the algorithms that got
    artifacts.  [predict_blend] is called if and only if the model pipeline
    returns and the list has two or more entries; with a list of exactly
    one entry it is not called.  When the scorer is known, the list has no
    repeats and all its entries are in the registry, the entries are the
    algorithms that got artifacts, so that the test then counts these. *)
Theorem C4_blending_iff_two_or_more_configured (K : Collaborators) (model : Model.t) :
  keeps_algolist K ->
  blend_contract K model (Main.model_pipeline K model) /\
  blend_contract K model (Alpha.model_pipeline K model).
Proof.
  intros HK. split.
  - by eapply form_blend; [apply main_model_pipeline_form |].
  - by eapply form_blend; [apply alpha_model_pipeline_form |].
Qed.

Lemma C4_blending_iff_two_or_more_configured_witness :
  blend_contract Toy.K Toy.training (Main.model_pipeline Toy.K Toy.training) /\
  blend_contract Toy.K Toy.training (Alpha.model_pipeline Toy.K Toy.training).
Proof.
  apply (C4_blending_iff_two_or_more_configured Toy.K Toy.training).
  repeat split.
Defined.

(** ** The recursive-elimination step *)

(** C5: in an iteration for an algorithm of the registry, with recursive
    feature elimination requested, there is exactly one elimination step:
    the cross-validated search when the entry of the registry has a
    scoring function; else the coefficient-based search when the fitted
    estimator has coefficients; else none, with a log line that says so
    for this algorithm.  Without the request there is no such step. *)
Theorem C5_elimination_is_a_three_way_branch
    (K : Collaborators) (sel grid_search calibration : bool)
    (estimators : gmap string Estimator.t) (algo : string) (m : Model.t) (L : Locals)
    (e : Estimator.t) :
  estimators !! algo = Some e ->
  let fitted := first_fit K (model_to_fit K sel m) algo (Estimator.estimator e) in
  let run := algo_iteration K sel true grid_search calibration estimators algo (m, L) in
  eliminations (trace run)
  = [if Estimator.scoring e then CrossValidated
     else if hasattr_coef_ K fitted (Estimator.estimator e) then CoefficientBased
     else Skipped] /\
  calls "rfecv_search" (trace run)
  = (if Estimator.scoring e then [[VModel fitted; VStr algo]] else []) /\
  calls "rfe_search" (trace run)
  = (if Estimator.scoring e then []
     else if hasattr_coef_ K fitted (Estimator.estimator e) then [[VModel fitted; VStr algo]]
     else []) /\
  logs "No RFE Available for %s" (trace run)
  = (if Estimator.scoring e then []
     else if hasattr_coef_ K fitted (Estimator.estimator e) then []
     else [[VStr algo]]) /\
  eliminations
    (trace (algo_iteration K sel false grid_search calibration estimators algo (m, L))) = [].
Proof.
  intros H. cbn zeta. enter_iteration. rewrite H. run_iteration. all: done.
Qed.

Lemma C5_elimination_is_a_three_way_branch_witness :
  eliminations (trace (algo_iteration Toy.K true true false false Toy.registry "RF"
                         (Toy.training, unbound))) = [Skipped] /\
  eliminations (trace (algo_iteration Toy.K true true false false Toy.registry "LOGR"
                         (Toy.training, unbound))) = [CrossValidated].
Proof.
  split.
  - apply (C5_elimination_is_a_three_way_branch Toy.K true false false Toy.registry "RF"
             Toy.training unbound (Estimator.mk false (SkEstimator "RandomForestClassifier"))).
    vm_compute. reflexivity.
  - apply (C5_elimination_is_a_three_way_branch Toy.K true false false Toy.registry "LOGR"
             Toy.training unbound (Estimator.mk true (SkEstimator "LogisticRegression"))).
    vm_compute. reflexivity.
Defined.

(** ** The scoring path *)

(** C7: the scoring path raises when no model is persisted in the
    configured directory, and it does so from the load, before any call of
    [predict] or [predict_proba]; when a model is loaded it is applied to
    the test features of the model state, with probabilities for
    classification only, and nothing is trained and no metric computed. *)
Theorem C7_scoring_path (K : Collaborators) (model : Model.t) :
  scoring_contract K model (score_with_model K model).
Proof.
  unfold scoring_contract, score_with_model, load_model_object, column_1.
  split.
  - intros ->. by cbn.
  - intros p ->. destruct (Specs.model_type (Model.specs model)); cbn.
    + destruct (decide _) as [Hc|Hc]; cbn.
      * repeat split; try done.
        unfold only_events, scoring_logs, scoring_calls; repeat constructor.
      * repeat split; try done.
        -- unfold only_events, scoring_logs, scoring_calls; repeat constructor.
        -- intros [?|?]; [done | lia].
    + repeat split; try done.
      unfold only_events, scoring_logs, scoring_calls; repeat constructor.
Qed.

Lemma C7_scoring_path_witness :
  outcome (score_with_model Toy.K Toy.scoring_run_no_model) = Raise (ModelNotFound "./nowhere") /\
  calls "predict" (trace (score_with_model Toy.K Toy.scoring_run)) <> [] /\
  outcome (score_with_model Toy.K Toy.scoring_run) = Ok tt.
Proof.
  split; [| split].
  - apply (C7_scoring_path Toy.K Toy.scoring_run_no_model). vm_compute. reflexivity.
  - destruct (C7_scoring_path Toy.K Toy.scoring_run) as [_ H].
    destruct (H (Pickled "BEST")) as (-> & _); [vm_compute; reflexivity | discriminate].
  - destruct (C7_scoring_path Toy.K Toy.scoring_run) as [_ H].
    apply (H (Pickled "BEST")); [vm_compute; reflexivity |].
    right. vm_compute. lia.
Defined.

(** ** Feature selection in the loop *)

(** C6, as stated, fails in [alpha.py]: with feature selection and grid
    search both enabled the loop runs its two iterations and never calls
    the selector. *)
Lemma C6_selector_not_called_under_grid_search :
  Specs.feature_selection (Model.specs Toy.selection_and_grid_search) = true /\
  logs "Algorithm: %s" (trace (Alpha.model_pipeline Toy.K Toy.selection_and_grid_search))
  = [[VStr "LOGR"]; [VStr "RF"]] /\
  calls "select_features" (trace (Alpha.model_pipeline Toy.K Toy.selection_and_grid_search)) = [] /\
  ~ selects_in_every_iteration (Alpha.model_pipeline Toy.K Toy.selection_and_grid_search).
Proof. repeat split; [vm_compute; reflexivity .. | vm_compute; discriminate]. Qed.

(** C6, amended: in [__main__.py] the selector is called in every
    iteration that is begun when feature selection is enabled, whatever
    the other options, and never otherwise; in [alpha.py] it is called in
    every iteration that is begun when feature selection is enabled and
    grid search is not, and never otherwise.  In both, one model is
    threaded through all the calls of the pipeline: every collaborator is
    given the model the call before it returned, so what the selector
    returns is what the rest of the iteration and the later iterations
    work on. *)
Theorem C6_feature_selection_in_the_loop (K : Collaborators) (model : Model.t) :
  let s := Model.specs model in
  length (calls "select_features" (trace (Main.model_pipeline K model)))
  = (if Specs.feature_selection s
     then length (logs "Algorithm: %s" (trace (Main.model_pipeline K model)))
     else 0%nat) /\
  length (calls "select_features" (trace (Alpha.model_pipeline K model)))
  = (if Specs.feature_selection s && negb (Specs.grid_search s)
     then length (logs "Algorithm: %s" (trace (Alpha.model_pipeline K model)))
     else 0%nat) /\
  threaded K model (trace (Main.model_pipeline K model)) /\
  threaded K model (trace (Alpha.model_pipeline K model)).
Proof.
  cbn zeta. split; [| split; [| split]].
  - apply (form_selects K model _ _ (main_model_pipeline_form K model)).
  - apply (form_selects K model _ _ (alpha_model_pipeline_form K model)).
  - apply (form_threaded K model _ _ (main_model_pipeline_form K model)).
  - apply (form_threaded K model _ _ (alpha_model_pipeline_form K model)).
Qed.

(** ** The main pipelines *)

Lemma bind_ret {A B} (c : M A) (b : B) :
  trace (c ;; ret b) = trace c /\
  outcome (c ;; ret b) = match outcome c with Ok _ => Ok b | Raise e => Raise e end.
Proof. destruct c as [t [a|e]]; cbn; [by rewrite app_nil_r | done]. Qed.

Lemma bind_ret_id {A} (c : M A) : (x <- c ;; ret x) = c.
Proof. destruct c as [t [a|e]]; cbn; [by rewrite app_nil_r | done]. Qed.

Lemma main_data_pipeline_banners K model :
  head (trace (Main.data_pipeline K model)) = Some (Log "DATA PIPELINE" []) /\
  banners [[]] [] [] (trace (Main.data_pipeline K model)).
Proof. unfold Main.data_pipeline, banners. enter_data_pipeline K model; done. Qed.

Lemma alpha_data_pipeline_banners K model :
  head (trace (Alpha.data_pipeline K model)) = Some (Log "DATA PIPELINE" []) /\
  banners [[]] [] [] (trace (Alpha.data_pipeline K model)).
Proof. unfold Alpha.data_pipeline, banners. enter_data_pipeline K model; done. Qed.

Lemma score_with_model_banners K model :
  banners [] [[]] [] (trace (score_with_model K model)).
Proof.
  unfold banners, score_with_model, load_model_object, column_1.
  destruct (persisted K !! _); [| done].
  destruct (Specs.model_type (Model.specs model)); cbn; [| done].
  by destruct (decide _).
Qed.

Lemma form_banners K model sel run :
  model_pipeline_form K model sel run -> banners [] [] [[]] (trace run).
Proof.
  intros Hform. unfold banners.
  destruct (scorers K !! Specs.scorer (Model.specs model)) as [s|] eqn:Hs.
  2: { destruct Hform as (m0 & before & Hev & Hlog & _ & _ & _ & ->).
       unfold check_scorer. rewrite Hs. cbn. rewrite app_nil_r, Hlog.
       rewrite (only_events_logs _ _ "DATA PIPELINE" _ Hev eq_refl).
       by rewrite (only_events_logs _ _ "SCORING" _ Hev eq_refl). }
  destruct (form_loop K model sel run Hform (mk_is_Some _ _ Hs))
    as (m0 & before & Hev & Hlog & _ & _ & _ & Hrun).
  cbn zeta in Hrun.
  pose proof (loop_events K sel (Specs.rfe (Model.specs model))
                (Specs.grid_search (Model.specs model)) (Specs.calibration (Model.specs model))
                (get_estimators K m0) (Model.algolist m0) (m0, unbound)) as Hlev.
  destruct (outcome (for_each _ _ _)) as [[m' L']|e]; destruct Hrun as [-> _]; read_trace.
  - pose proof (after_loop_events K (Specs.test_labels (Model.specs model)) m') as Haev.
    rewrite Hlog.
    rewrite (only_events_logs _ _ "DATA PIPELINE" _ Hev eq_refl).
    rewrite (only_events_logs _ _ "SCORING" _ Hev eq_refl).
    rewrite (only_events_logs _ _ "DATA PIPELINE" _ Hlev eq_refl).
    rewrite (only_events_logs _ _ "SCORING" _ Hlev eq_refl).
    rewrite (only_events_logs _ _ "MODEL PIPELINE" _ Hlev eq_refl).
    rewrite (only_events_logs _ _ "DATA PIPELINE" _ Haev eq_refl).
    rewrite (only_events_logs _ _ "SCORING" _ Haev eq_refl).
    by rewrite (only_events_logs _ _ "MODEL PIPELINE" _ Haev eq_refl).
  - rewrite Hlog.
    rewrite (only_events_logs _ _ "DATA PIPELINE" _ Hev eq_refl).
    rewrite (only_events_logs _ _ "SCORING" _ Hev eq_refl).
    rewrite (only_events_logs _ _ "DATA PIPELINE" _ Hlev eq_refl).
    rewrite (only_events_logs _ _ "SCORING" _ Hlev eq_refl).
    by rewrite (only_events_logs _ _ "MODEL PIPELINE" _ Hlev eq_refl).
Qed.

(** A main pipeline after its data pipeline has returned. *)
Lemma branch_of_main K (flag : bool) (data training : Model.t -> M Model.t) model m1 :
  outcome (data model) = Ok m1 ->
  head (trace (data model)) = Some (Log "DATA PIPELINE" []) ->
  banners [[]] [] [] (trace (data model)) ->
  banners [] [] [[]] (trace (training m1)) ->
  let main := (model <- data model ;;
               model <- (if flag then score_with_model K model ;; ret model
                         else training model) ;;
               ret model) in
  branch_contract K flag m1 (data model) (training m1) main /\
  (flag = true -> scoring_mode_result K m1 main).
Proof.
  intros Hout Hhead (Hd & Hs & Hm) (Td & Ts & Tm). cbn zeta.
  destruct (bind_ok (data model)
              (fun model => model <- (if flag then score_with_model K model ;; ret model
                                      else training model) ;; ret model) m1 Hout) as [Ht Ho].
  rewrite bind_ret_id in Ht, Ho.
  destruct (score_with_model_banners K m1) as (Sd & Ss & Sm).
  destruct (bind_ret (score_with_model K m1) m1) as [Hst Hso].
  unfold branch_contract, scoring_mode_result. rewrite Ht, Ho, !logs_app, Hd, Hs, Hm.
  destruct flag; rewrite ?Hst, ?Hso, ?Sd, ?Ss, ?Sm, ?Td, ?Ts, ?Tm.
  all: destruct (trace (data model)) as [|e t]; [done |].
  all: repeat split; done.
Qed.

Lemma main_data_pipeline_returns K model :
  (shape (dropped_train K model)).2 = (shape (dropped_test K model)).2 ->
  exists m1, outcome (Main.data_pipeline K model) = Ok m1.
Proof. intros E. by apply (main_data_pipeline_shape K model). Qed.

Lemma alpha_data_pipeline_returns K model :
  (shape (dropped_train K model)).2 = (shape (dropped_test K model)).2 ->
  exists m1, outcome (Alpha.data_pipeline K model) = Ok m1.
Proof. intros E. by apply (alpha_data_pipeline_shape K model). Qed.

Lemma main_pipeline_branch K model m1 :
  outcome (Main.data_pipeline K model) = Ok m1 ->
  branch_contract K (Specs.scoring (Model.specs model)) m1
    (Main.data_pipeline K model) (Main.model_pipeline K m1) (Main.main_pipeline K model) /\
  (Specs.scoring (Model.specs model) = true ->
   scoring_mode_result K m1 (Main.main_pipeline K model)).
Proof.
  intros Hout.
  apply (branch_of_main K (Specs.scoring (Model.specs model))
           (Main.data_pipeline K) (Main.model_pipeline K) model m1 Hout).
  - apply main_data_pipeline_banners.
  - apply main_data_pipeline_banners.
  - apply (form_banners K m1 _ _ (main_model_pipeline_form K m1)).
Qed.

Lemma alpha_pipeline_branch K model m1 :
  outcome (Alpha.data_pipeline K model) = Ok m1 ->
  branch_contract K (Specs.scoring_mode (Model.specs model)) m1
    (Alpha.data_pipeline K model) (Alpha.model_pipeline K m1) (Alpha.main_pipeline K model) /\
  (Specs.scoring_mode (Model.specs model) = true ->
   scoring_mode_result K m1 (Alpha.main_pipeline K model)).
Proof.
  intros Hout.
  apply (branch_of_main K (Specs.scoring_mode (Model.specs model))
           (Alpha.data_pipeline K) (Alpha.model_pipeline K) model m1 Hout).
  - apply alpha_data_pipeline_banners.
  - apply alpha_data_pipeline_banners.
  - apply (form_banners K m1 _ _ (alpha_model_pipeline_form K m1)).
Qed.

(** C9: in both entry points, in a run whose data pipeline returns (the
    column counts agree), the main pipeline runs the data pipeline first
    and then exactly one of the scoring path, when the scoring flag is
    set, and the model pipeline, when it is not: its trace is the trace of
    the data pipeline followed by the trace of that one, and the banner of
    the other one is not in it. *)
Theorem C9_data_pipeline_then_exactly_one_branch (K : Collaborators) (model : Model.t) :
  (shape (dropped_train K model)).2 = (shape (dropped_test K model)).2 ->
  (exists m1, outcome (Main.data_pipeline K model) = Ok m1 /\
     branch_contract K (Specs.scoring (Model.specs model)) m1
       (Main.data_pipeline K model) (Main.model_pipeline K m1) (Main.main_pipeline K model)) /\
  (exists m1, outcome (Alpha.data_pipeline K model) = Ok m1 /\
     branch_contract K (Specs.scoring_mode (Model.specs model)) m1
       (Alpha.data_pipeline K model) (Alpha.model_pipeline K m1) (Alpha.main_pipeline K model)).
Proof.
  intros E. split.
  - destruct (main_data_pipeline_returns K model E) as [m1 Hout].
    exists m1. split; [done | by apply main_pipeline_branch].
  - destruct (alpha_data_pipeline_returns K model E) as [m1 Hout].
    exists m1. split; [done | by apply alpha_pipeline_branch].
Qed.

Lemma C9_data_pipeline_then_exactly_one_branch_witness :
  logs "SCORING" (trace (Main.main_pipeline Toy.K Toy.scoring_run)) = [[]] /\
  logs "MODEL PIPELINE" (trace (Main.main_pipeline Toy.K Toy.scoring_run)) = [] /\
  logs "SCORING" (trace (Alpha.main_pipeline Toy.K Toy.training)) = [] /\
  logs "MODEL PIPELINE" (trace (Alpha.main_pipeline Toy.K Toy.training)) = [[]].
Proof.
  assert ((shape (dropped_train Toy.K Toy.scoring_run)).2
          = (shape (dropped_test Toy.K Toy.scoring_run)).2) as E1
    by (vm_compute; reflexivity).
  assert ((shape (dropped_train Toy.K Toy.training)).2
          = (shape (dropped_test Toy.K Toy.training)).2) as E2
    by (vm_compute; reflexivity).
  destruct (C9_data_pipeline_then_exactly_one_branch Toy.K Toy.scoring_run E1)
    as [(m1 & _ & _ & _ & _ & Hs & Hm) _].
  destruct (C9_data_pipeline_then_exactly_one_branch Toy.K Toy.training E2)
    as [_ (m2 & _ & _ & _ & _ & Hs' & Hm')].
  repeat split; assumption.
Defined.

(** C10: in both entry points, in scoring mode, the model the main
    pipeline returns is the model the data pipeline returned: the scoring
    path adds nothing to it.  The main pipeline returns it whenever the
    scoring path returns, and raises what the scoring path raises. *)
Theorem C10_scoring_mode_returns_the_data_pipeline_model
    (K : Collaborators) (model : Model.t) :
  (shape (dropped_train K model)).2 = (shape (dropped_test K model)).2 ->
  (Specs.scoring (Model.specs model) = true ->
   exists m1, outcome (Main.data_pipeline K model) = Ok m1 /\
     scoring_mode_result K m1 (Main.main_pipeline K model)) /\
  (Specs.scoring_mode (Model.specs model) = true ->
   exists m1, outcome (Alpha.data_pipeline K model) = Ok m1 /\
     scoring_mode_result K m1 (Alpha.main_pipeline K model)).
Proof.
  intros E. split; intros Hflag.
  - destruct (main_data_pipeline_returns K model E) as [m1 Hout].
    exists m1. split; [done | by apply main_pipeline_branch].
  - destruct (alpha_data_pipeline_returns K model E) as [m1 Hout].
    exists m1. split; [done | by apply alpha_pipeline_branch].
Qed.

Lemma C10_scoring_mode_returns_the_data_pipeline_model_witness :
  exists m1, outcome (Main.data_pipeline Toy.K Toy.scoring_run) = Ok m1 /\
    scoring_mode_result Toy.K m1 (Main.main_pipeline Toy.K Toy.scoring_run).
Proof.
  assert ((shape (dropped_train Toy.K Toy.scoring_run)).2
          = (shape (dropped_test Toy.K Toy.scoring_run)).2) as E
    by (vm_compute; reflexivity).
  destruct (C10_scoring_mode_returns_the_data_pipeline_model Toy.K Toy.scoring_run E)
    as [H _].
  exact (H eq_refl).
Defined.

(** The scoring run on the concrete collaborators: the main pipeline
    returns the model of the data pipeline. *)
Lemma scoring_run_returns_the_engineered_model :
  outcome (Main.main_pipeline Toy.K Toy.scoring_run)
  = outcome (Main.data_pipeline Toy.K Toy.scoring_run) /\
  exists m1, outcome (Main.main_pipeline Toy.K Toy.scoring_run) = Ok m1.
Proof. split; [vm_compute; reflexivity | eexists; vm_compute; reflexivity]. Qed.

(** ** The model pipelines in two parts *)

Lemma main_model_pipeline_parts K model :
  Main.model_pipeline K model
  = (m0 <- main_prepare K model ;;
     select_and_finish K (Specs.feature_selection (Model.specs model)) (Model.specs model) m0).
Proof.
  unfold Main.model_pipeline, main_prepare, select_and_finish, check_scorer, after_loop.
  destruct (Specs.model_type (Model.specs model)); [destruct (Specs.sampling (Model.specs model)) |].
  all: reflexivity.
Qed.

Lemma alpha_model_pipeline_parts K model :
  Alpha.model_pipeline K model
  = (m0 <- alpha_prepare K model ;;
     select_and_finish K
       (Specs.feature_selection (Model.specs model) && negb (Specs.grid_search (Model.specs model)))
       (Model.specs model) m0).
Proof.
  unfold Alpha.model_pipeline, alpha_prepare, select_and_finish, check_scorer, after_loop.
  destruct (Specs.sampling (Model.specs model)); reflexivity.
Qed.

Lemma main_prepare_returns K model :
  outcome (main_prepare K model) = Ok (main_model_at_loop K model) /\
  only_events before_loop_logs before_loop_calls (trace (main_prepare K model)).
Proof.
  unfold main_prepare, main_model_at_loop.
  destruct (Specs.model_type (Model.specs model)); [destruct (Specs.sampling (Model.specs model)) |].
  all: split; [reflexivity |].
  all: unfold only_events, before_loop_logs, before_loop_calls; repeat constructor.
Qed.

Lemma alpha_prepare_returns K model :
  outcome (alpha_prepare K model) = Ok (alpha_model_at_loop K model) /\
  only_events before_loop_logs before_loop_calls (trace (alpha_prepare K model)).
Proof.
  unfold alpha_prepare, alpha_model_at_loop.
  destruct (Specs.sampling (Model.specs model)).
  all: split; [reflexivity |].
  all: unfold only_events, before_loop_logs, before_loop_calls; repeat constructor.
Qed.

Lemma main_in_two_parts K model :
  in_two_parts K (Specs.feature_selection (Model.specs model)) (Model.specs model)
    (main_model_at_loop K model) (Main.model_pipeline K model).
Proof.
  destruct (main_prepare_returns K model) as [Hout Hev].
  exists (trace (main_prepare K model)). split; [done |].
  rewrite main_model_pipeline_parts. by apply bind_ok.
Qed.

Lemma alpha_in_two_parts K model :
  in_two_parts K
    (Specs.feature_selection (Model.specs model) && negb (Specs.grid_search (Model.specs model)))
    (Model.specs model) (alpha_model_at_loop K model) (Alpha.model_pipeline K model).
Proof.
  destruct (alpha_prepare_returns K model) as [Hout Hev].
  exists (trace (alpha_prepare K model)). split; [done |].
  rewrite alpha_model_pipeline_parts. by apply bind_ok.
Qed.


(** ** From the scorer test on *)

Section rest.
Context (K : Collaborators) (sel : bool) (s : Specs.t) (m0 : Model.t).

Local Abbreviation loop :=
  (for_each (algo_iteration K sel (Specs.rfe s) (Specs.grid_search s) (Specs.calibration s)
               (get_estimators K m0))
            (Model.algolist m0) (m0, unbound)).

Lemma rest_no_scorer :
  scorers K !! Specs.scorer s = None ->
  select_and_finish K sel s m0
  = ([], Raise (KeyError [VStr "Scorer function %s not found"; VStr (Specs.scorer s)])).
Proof. intros H. unfold select_and_finish, check_scorer. by rewrite H. Qed.

Lemma rest_loop :
  is_Some (scorers K !! Specs.scorer s) ->
  match outcome loop with
  | Ok st =>
      trace (select_and_finish K sel s m0)
      = Log "Selecting Models" [] :: trace loop ++ trace (after_loop K (Specs.test_labels s) st.1) /\
      outcome (select_and_finish K sel s m0) = outcome (after_loop K (Specs.test_labels s) st.1)
  | Raise e =>
      trace (select_and_finish K sel s m0) = Log "Selecting Models" [] :: trace loop /\
      outcome (select_and_finish K sel s m0) = Raise e
  end.
Proof.
  intros [x Hs]. unfold select_and_finish, check_scorer. rewrite Hs.
  destruct loop as [t [st|e]]; [| done].
  cbn. by destruct (after_loop _ _ _).
Qed.

End rest.

(** The loop, with the locals as the [try] block leaves them. *)
Lemma loop_fits K sel rfe grid_search calibration estimators l : forall m L,
  L = unbound \/ (exists e, L = resolved e) ->
  let run := for_each (algo_iteration K sel rfe grid_search calibration estimators) l (m, L) in
  omap fit_of (calls "first_fit" (trace run)) = fitted_with estimators (loc_est L) l /\
  omap algo_of (calls "make_predictions" (trace run))
  = map fst (fitted_with estimators (loc_est L) l).
Proof.
  induction l as [|a l IH]; intros m L HL; cbn zeta; [done |].
  cbn [fitted_with]. destruct (estimators !! a) as [e|] eqn:Ha.
  - destruct (iteration_resolved K sel rfe grid_search calibration _ _ m L e Ha)
      as (m1 & H1 & H2 & H3 & _).
    destruct (for_each_cons_ok _ a l _ _ H1) as [-> _].
    destruct (IH m1 (resolved e) (or_intror (ex_intro _ e eq_refl))) as [IH1 IH2].
    rewrite !calls_app, !omap_app, H2, H3, IH1, IH2. done.
  - destruct HL as [-> | [e ->]].
    + destruct (iteration_unbound K sel rfe grid_search calibration _ _ m unbound Ha eq_refl)
        as (H1 & _ & _ & H3 & H4).
      destruct (for_each_cons_raise _ a l _ _ H1) as [-> _]. by rewrite H3, H4.
    + destruct (iteration_stale K sel rfe grid_search calibration _ _ m (resolved e) Ha
                  (resolved_bound e)) as (m1 & est & H1 & Hest & _ & H2 & H3 & _).
      destruct (for_each_cons_ok _ a l _ _ H1) as [-> _].
      destruct (IH m1 (resolved e) (or_intror (ex_intro _ e eq_refl))) as [IH1 IH2].
      rewrite !calls_app, !omap_app, H2, H3, IH1, IH2. cbn in Hest. injection Hest as <-. done.
Qed.


Lemma rest_events K sel s m0 :
  only_events ("Selecting Models" :: loop_logs) (loop_calls ++ after_loop_calls)
    (trace (select_and_finish K sel s m0)).
Proof.
  assert (forall t, only_events loop_logs loop_calls t ->
                    only_events ("Selecting Models" :: loop_logs) (loop_calls ++ after_loop_calls) t)
    as Hl.
  { intros t Ht. eapply Forall_impl; [exact Ht |].
    intros [f a|f a] H; rewrite ?elem_of_cons, ?elem_of_app; tauto. }
  assert (forall t, only_events [] after_loop_calls t ->
                    only_events ("Selecting Models" :: loop_logs) (loop_calls ++ after_loop_calls) t)
    as Ha.
  { intros t Ht. eapply Forall_impl; [exact Ht |].
    intros [f a|f a] H; rewrite ?elem_of_cons, ?elem_of_app.
    - by apply elem_of_nil in H.
    - tauto. }
  destruct (scorers K !! Specs.scorer s) as [x|] eqn:Hs.
  2: { rewrite (rest_no_scorer K sel s m0 Hs). constructor. }
  pose proof (rest_loop K sel s m0 (mk_is_Some _ _ Hs)) as Hrun.
  pose proof (loop_events K sel (Specs.rfe s) (Specs.grid_search s) (Specs.calibration s)
                (get_estimators K m0) (Model.algolist m0) (m0, unbound)) as Hlev.
  destruct (outcome (for_each _ _ _)) as [st|e]; destruct Hrun as [-> _].
  - constructor; [by left |]. apply Forall_app. split; [by apply Hl |].
    apply Ha, after_loop_events.
  - constructor; [by left |]. by apply Hl.
Qed.


Section two_parts.
Context (K : Collaborators) (sel : bool) (s : Specs.t) (m0 : Model.t) (run : M Model.t).
Context (Hparts : in_two_parts K sel s m0 run).

Lemma two_parts_fits : fits_contract K s m0 run.
Proof.
  destruct Hparts as (before & Hev & Ht & _). unfold fits_contract. rewrite Ht, !calls_app.
  rewrite (only_events_calls _ _ "first_fit" _ Hev eq_refl).
  rewrite (only_events_calls _ _ "make_predictions" _ Hev eq_refl). cbn [app].
  destruct (scorers K !! Specs.scorer s) as [x|] eqn:Hs.
  2: { by rewrite (rest_no_scorer K sel s m0 Hs). }
  pose proof (rest_loop K sel s m0 (mk_is_Some _ _ Hs)) as Hrun.
  destruct (loop_fits K sel (Specs.rfe s) (Specs.grid_search s) (Specs.calibration s)
              (get_estimators K m0) (Model.algolist m0) m0 unbound (or_introl eq_refl))
    as [Hf Hp].
  destruct (outcome (for_each _ _ _)) as [st|e]; destruct Hrun as [-> _]; read_trace.
  - pose proof (after_loop_events K (Specs.test_labels s) st.1) as Haev.
    rewrite (only_events_calls _ _ "first_fit" _ Haev eq_refl).
    rewrite (only_events_calls _ _ "make_predictions" _ Haev eq_refl).
    by rewrite !app_nil_r.
  - done.
Qed.



Lemma two_parts_empty :
  is_Some (scorers K !! Specs.scorer s) -> Model.algolist m0 = [] ->
  empty_list_contract K m0 run.
Proof.
  intros [x Hs] Hl. destruct Hparts as (before & Hev & Ht & Ho).
  unfold empty_list_contract. rewrite Ho, Ht.
  unfold select_and_finish, check_scorer, after_loop. rewrite Hs, Hl. cbn.
  destruct (decide _) as [Hlt|_]; [rewrite Hl in Hlt; cbn in Hlt; lia |].
  destruct (Specs.test_labels s); cbn; rewrite ?calls_app, ?logs_app.
  all: rewrite (only_events_logs _ _ "Algorithm: %s" _ Hev eq_refl).
  all: rewrite (only_events_calls _ _ "first_fit" _ Hev eq_refl).
  all: rewrite (only_events_calls _ _ "make_predictions" _ Hev eq_refl).
  all: rewrite (only_events_calls _ _ "predict_blend" _ Hev eq_refl).
  all: rewrite (only_events_calls _ _ "generate_metrics" _ Hev eq_refl).
  all: rewrite (only_events_calls _ _ "save_model" _ Hev eq_refl).
  all: done.
Qed.

End two_parts.

(** ** What the model pipelines do, beyond the claims *)

(** X1: in both entry points the loop fits every algorithm of the list in
    order, as long as an estimator is bound: an algorithm of the registry
    on its own estimator, an algorithm that is not in the registry on the
    estimator of the nearest algorithm of the registry before it; and it
    makes predictions for exactly the algorithms it has fitted.  With no
    algorithm of the registry before it, the loop ends at the first
    algorithm that is not in the registry; with an unknown scorer nothing
    is fitted. *)
Theorem X1_every_algorithm_is_fitted_on_the_nearest_resolved_estimator
    (K : Collaborators) (model : Model.t) :
  fits_contract K (Model.specs model) (main_model_at_loop K model) (Main.model_pipeline K model) /\
  fits_contract K (Model.specs model) (alpha_model_at_loop K model) (Alpha.model_pipeline K model).
Proof.
  split.
  - apply (two_parts_fits K _ _ _ _ (main_in_two_parts K model)).
  - apply (two_parts_fits K _ _ _ _ (alpha_in_two_parts K model)).
Qed.



(** X4: in both entry points, with a known scorer and an empty list of
    algorithms, a model pipeline begins no iteration, fits nothing,
    predicts nothing and does not blend, and still computes the metrics,
    selects a best model and saves it, on the model as it was before the
    loop. *)
Theorem X4_an_empty_list_of_algorithms_still_saves_a_model
    (K : Collaborators) (model : Model.t) :
  is_Some (scorers K !! Specs.scorer (Model.specs model)) ->
  Model.algolist (main_model_at_loop K model) = [] ->
  Model.algolist (alpha_model_at_loop K model) = [] ->
  empty_list_contract K (main_model_at_loop K model) (Main.model_pipeline K model) /\
  empty_list_contract K (alpha_model_at_loop K model) (Alpha.model_pipeline K model).
Proof.
  intros Hs Hm Ha. split.
  - by apply (two_parts_empty K _ _ _ _ (main_in_two_parts K model)).
  - by apply (two_parts_empty K _ _ _ _ (alpha_in_two_parts K model)).
Qed.

Lemma X4_an_empty_list_of_algorithms_still_saves_a_model_witness :
  empty_list_contract Toy.K (main_model_at_loop Toy.K Toy.no_algorithms)
    (Main.model_pipeline Toy.K Toy.no_algorithms) /\
  empty_list_contract Toy.K (alpha_model_at_loop Toy.K Toy.no_algorithms)
    (Alpha.model_pipeline Toy.K Toy.no_algorithms).
Proof.
  apply (X4_an_empty_list_of_algorithms_still_saves_a_model Toy.K Toy.no_algorithms).
  - vm_compute. eexists. reflexivity.
  - reflexivity.
  - reflexivity.
Defined.

Lemma prepared_sampling K model (gate : bool) (prepare : M Model.t) sel m0 :
  outcome prepare = Ok m0 ->
  sampling_contract K model gate prepare ->
  sampling_contract K model gate
    (m0 <- prepare ;; select_and_finish K sel (Model.specs model) m0).
Proof.
  intros Hout (H1 & H2 & H3 & H4).
  destruct (bind_ok prepare (fun m0 => select_and_finish K sel (Model.specs model) m0) m0 Hout)
    as [Ht _].
  pose proof (rest_events K sel (Model.specs model) m0) as Hev.
  unfold sampling_contract. rewrite Ht, !calls_app, !logs_app, !length_app, H1, H2, H3, H4.
  rewrite (only_events_calls _ _ "shuffle_data" _ Hev eq_refl).
  rewrite (only_events_calls _ _ "sample_data" _ Hev eq_refl).
  rewrite (only_events_calls _ _ "get_sample_weights" _ Hev eq_refl).
  rewrite (only_events_logs _ _ "Skipping Sampling" _ Hev eq_refl).
  by rewrite !app_nil_r, Nat.add_0_r.
Qed.

(** X5: sampling before the loop.  Both entry points shuffle the data
    once.  [__main__.py] samples and computes the sample weights for
    classification only: a regression run calls neither [sample_data] nor
    [get_sample_weights], whatever [sampling] is.  [alpha.py] samples
    whenever [sampling] is set and always computes the sample weights. *)
Theorem X5_sampling_is_for_classification_in_main_and_for_all_in_alpha
    (K : Collaborators) (model : Model.t) :
  sampling_contract K model (is_classification (Specs.model_type (Model.specs model)))
    (Main.model_pipeline K model) /\
  sampling_contract K model true (Alpha.model_pipeline K model).
Proof.
  split.
  - rewrite main_model_pipeline_parts.
    apply (prepared_sampling K model _ _ _ (main_model_at_loop K model));
      [apply main_prepare_returns |].
    unfold sampling_contract, main_prepare.
    destruct (Specs.model_type (Model.specs model));
      destruct (Specs.sampling (Model.specs model)); done.
  - rewrite alpha_model_pipeline_parts.
    apply (prepared_sampling K model _ _ _ (alpha_model_at_loop K model));
      [apply alpha_prepare_returns |].
    unfold sampling_contract, alpha_prepare.
    destruct (Specs.sampling (Model.specs model)); done.
Qed.

(** X6: for a classification run in which feature selection and grid
    search are not both enabled, the model pipelines of the two entry
    points are the same: the same log lines and calls in the same order,
    and the same result. *)
Theorem X6_the_model_pipelines_coincide_for_classification_without_both_options
    (K : Collaborators) (model : Model.t) :
  Specs.model_type (Model.specs model) = classification ->
  Specs.feature_selection (Model.specs model) && Specs.grid_search (Model.specs model) = false ->
  Alpha.model_pipeline K model = Main.model_pipeline K model.
Proof.
  intros Ht Hfg. rewrite alpha_model_pipeline_parts, main_model_pipeline_parts.
  assert (alpha_prepare K model = main_prepare K model) as ->.
  { unfold alpha_prepare, main_prepare. rewrite Ht.
    by destruct (Specs.sampling (Model.specs model)). }
  by destruct (Specs.feature_selection (Model.specs model)),
       (Specs.grid_search (Model.specs model)).
Qed.

Lemma X6_the_model_pipelines_coincide_for_classification_without_both_options_witness :
  Alpha.model_pipeline Toy.K Toy.training = Main.model_pipeline Toy.K Toy.training.
Proof.
  apply (X6_the_model_pipelines_coincide_for_classification_without_both_options
           Toy.K Toy.training); reflexivity.
Defined.

(** ** What the data pipelines do, beyond the claims *)

(** X7: the data pipelines of the two entry points call the same
    collaborators with the same arguments in the same order and end the
    same way, with the same model or the same exception; they differ in
    their log lines only. *)
Theorem X7_the_data_pipelines_differ_in_log_lines_only (K : Collaborators) (model : Model.t) :
  all_calls (trace (Main.data_pipeline K model)) = all_calls (trace (Alpha.data_pipeline K model)) /\
  outcome (Main.data_pipeline K model) = outcome (Alpha.data_pipeline K model).
Proof.
  unfold Main.data_pipeline, Alpha.data_pipeline. enter_data_pipeline K model; done.
Qed.

Lemma resplit_snapshot (X : Table) k :
  columns (array_split X k).1 = columns (array_split X k).2 /\
  (shape (array_split X k).1).1 <= k /\
  ((shape (array_split X k).1).1 < k -> (shape (array_split X k).2).1 = 0%nat).
Proof.
  unfold array_split, shape. cbn. rewrite length_take, length_drop. split; [done | lia].
Qed.

Ltac solve_resplit_contract :=
  split; [repeat (constructor; [apply resplit_snapshot |]); constructor |];
  intros; try done; eauto.

Lemma main_data_pipeline_resplit K model : resplit_contract K model (Main.data_pipeline K model).
Proof.
  unfold resplit_contract, Main.data_pipeline, dropped_train, dropped_test.
  enter_data_pipeline K model; solve_resplit_contract.
Qed.

Lemma alpha_data_pipeline_resplit K model : resplit_contract K model (Alpha.data_pipeline K model).
Proof.
  unfold resplit_contract, Alpha.data_pipeline, dropped_train, dropped_test.
  enter_data_pipeline K model; solve_resplit_contract.
Qed.

(** X8: in both entry points, whatever the external transforms return,
    the train and the test table of every snapshot have the same column
    labels, and no re-split raises: a train table has at most as many rows
    as the split point says, and when a transform has returned fewer rows
    than that, the train table takes them all and the test table is
    empty. *)
Theorem X8_every_resplit_keeps_the_columns_and_never_raises
    (K : Collaborators) (model : Model.t) :
  resplit_contract K model (Main.data_pipeline K model) /\
  resplit_contract K model (Alpha.data_pipeline K model).
Proof. split; [apply main_data_pipeline_resplit | apply alpha_data_pipeline_resplit]. Qed.

(** A transform that keeps one row of three: the train tables of the
    snapshots have one row where the split point says two, the test tables
    are empty, and the run returns. *)
Lemma a_transform_that_drops_rows_empties_the_test_table :
  map (fun s : Table * Table => ((shape s.1).1, (shape s.2).1))
      (snapshots (trace (Main.data_pipeline Toy.K_first_row Toy.training)))
  = [(1, 0); (1, 0); (1, 0)]%nat /\
  recorded_split_point (trace (Main.data_pipeline Toy.K_first_row Toy.training)) = Some 2%nat.
Proof. split; vm_compute; reflexivity. Qed.

(** X9: the log lines about the distinct label values.  [__main__.py]
    logs those of the training labels for classification only, and those
    of the test labels for classification with [test_labels] set;
    [alpha.py] logs those of the training labels always, for regression
    too, and those of the test labels whenever [test_labels] is set.  They
    are logged before the column test, so also in a run that raises the
    shape error. *)
Theorem X9_the_distinct_label_values_are_gated_differently
    (K : Collaborators) (model : Model.t) :
  let s := Model.specs model in
  unique_values_contract K model (is_classification (Specs.model_type s))
    (is_classification (Specs.model_type s) && Specs.test_labels s)
    (Main.data_pipeline K model) /\
  unique_values_contract K model true (Specs.test_labels s) (Alpha.data_pipeline K model).
Proof.
  cbn zeta. unfold unique_values_contract, Main.data_pipeline, Alpha.data_pipeline.
  enter_data_pipeline K model; done.
Qed.

(** ** What the main pipelines do, beyond the claims *)

Lemma stops_of_main K (flag : bool) (data training : Model.t -> M Model.t) model e :
  outcome (data model) = Raise e ->
  banners [[]] [] [] (trace (data model)) ->
  stops_with_data_pipeline e (data model)
    (model <- data model ;;
     model <- (if flag then score_with_model K model ;; ret model else training model) ;;
     ret model).
Proof.
  intros Hout (_ & Hs & Hm).
  destruct (bind_raise (data model)
              (fun model => model <- (if flag then score_with_model K model ;; ret model
                                      else training model) ;; ret model) e Hout) as [Ht Ho].
  unfold stops_with_data_pipeline. by rewrite Ht, Ho, Hs, Hm.
Qed.

(** X10: in both entry points, when the column counts differ after the
    drop, the main pipeline raises the shape error of the data pipeline
    and stops there: it enters neither the scoring path nor the model
    pipeline, whatever the scoring flag is. *)
Theorem X10_a_shape_error_stops_the_main_pipeline (K : Collaborators) (model : Model.t) :
  (shape (dropped_train K model)).2 <> (shape (dropped_test K model)).2 ->
  let e := shape_error (shape (dropped_train K model)).2 (shape (dropped_test K model)).2 in
  stops_with_data_pipeline e (Main.data_pipeline K model) (Main.main_pipeline K model) /\
  stops_with_data_pipeline e (Alpha.data_pipeline K model) (Alpha.main_pipeline K model).
Proof.
  intros E. cbn zeta. split.
  - apply (stops_of_main K (Specs.scoring (Model.specs model))
             (Main.data_pipeline K) (Main.model_pipeline K)).
    + by apply (main_data_pipeline_shape K model).
    + apply main_data_pipeline_banners.
  - apply (stops_of_main K (Specs.scoring_mode (Model.specs model))
             (Alpha.data_pipeline K) (Alpha.model_pipeline K)).
    + by apply (alpha_data_pipeline_shape K model).
    + apply alpha_data_pipeline_banners.
Qed.

Lemma X10_a_shape_error_stops_the_main_pipeline_witness :
  stops_with_data_pipeline (shape_error 2 1)
    (Main.data_pipeline Toy.K Toy.mismatched) (Main.main_pipeline Toy.K Toy.mismatched) /\
  stops_with_data_pipeline (shape_error 2 1)
    (Alpha.data_pipeline Toy.K Toy.mismatched) (Alpha.main_pipeline Toy.K Toy.mismatched).
Proof.
  apply (X10_a_shape_error_stops_the_main_pipeline Toy.K Toy.mismatched).
  vm_compute. discriminate.
Defined.

Lemma training_of_main K (data training : Model.t -> M Model.t) model m1 :
  outcome (data model) = Ok m1 ->
  outcome (model <- data model ;;
           model <- (if false then score_with_model K model ;; ret model else training model) ;;
           ret model)
  = outcome (training m1).
Proof.
  intros Hout.
  destruct (bind_ok (data model)
              (fun model => model <- training model ;; ret model) m1 Hout) as [_ Ho].
  by rewrite bind_ret_id in Ho.
Qed.

(** X11: in both entry points, in training mode, the main pipeline ends
    as the model pipeline ends on the model the data pipeline returned:
    it returns the model the model pipeline returns and raises what the
    model pipeline raises. *)
Theorem X11_training_mode_ends_as_the_model_pipeline_ends
    (K : Collaborators) (model : Model.t) :
  (shape (dropped_train K model)).2 = (shape (dropped_test K model)).2 ->
  (Specs.scoring (Model.specs model) = false ->
   exists m1, outcome (Main.data_pipeline K model) = Ok m1 /\
     outcome (Main.main_pipeline K model) = outcome (Main.model_pipeline K m1)) /\
  (Specs.scoring_mode (Model.specs model) = false ->
   exists m1, outcome (Alpha.data_pipeline K model) = Ok m1 /\
     outcome (Alpha.main_pipeline K model) = outcome (Alpha.model_pipeline K m1)).
Proof.
  intros E. split; intros Hflag.
  - destruct (main_data_pipeline_returns K model E) as [m1 Hout].
    exists m1. split; [done |]. unfold Main.main_pipeline. rewrite Hflag.
    by apply (training_of_main K (Main.data_pipeline K) (Main.model_pipeline K)).
  - destruct (alpha_data_pipeline_returns K model E) as [m1 Hout].
    exists m1. split; [done |]. unfold Alpha.main_pipeline. rewrite Hflag.
    by apply (training_of_main K (Alpha.data_pipeline K) (Alpha.model_pipeline K)).
Qed.

Lemma X11_training_mode_ends_as_the_model_pipeline_ends_witness :
  exists m1, outcome (Main.data_pipeline Toy.K Toy.training) = Ok m1 /\
    outcome (Main.main_pipeline Toy.K Toy.training) = outcome (Main.model_pipeline Toy.K m1).
Proof.
  assert ((shape (dropped_train Toy.K Toy.training)).2
          = (shape (dropped_test Toy.K Toy.training)).2) as E
    by (vm_compute; reflexivity).
  destruct (X11_training_mode_ends_as_the_model_pipeline_ends Toy.K Toy.training E) as [H _].
  exact (H eq_refl).
Defined.

(** ** The scoring path, beyond the claims *)

(** X12: for classification, when the loaded model gives an array of
    probabilities with fewer than two columns, the scoring path raises
    [IndexError] on the column it takes; by then it has loaded the model,
    predicted, logged the predictions and called [predict_proba]; it logs
    no probabilities. *)
Theorem X12_probabilities_without_a_second_column_raise
    (K : Collaborators) (model : Model.t) (predictor : Predictor) :
  let X_test := Model.X_test model in
  let run := score_with_model K model in
  Specs.model_type (Model.specs model) = classification ->
  persisted K !! Specs.directory (Model.specs model) = Some predictor ->
  (shape (predict_proba K predictor X_test)).2 < 2 ->
  outcome run
  = Raise (IndexError [VStr "index 1 is out of bounds for axis 1";
                       VNat (shape (predict_proba K predictor X_test)).2]) /\
  logs "Predictions: %s" (trace run) = [[VInts (predict K predictor X_test)]] /\
  calls "predict_proba" (trace run) = [[VPredictor predictor; VTable X_test]] /\
  logs "Probabilities: %s" (trace run) = [].
Proof.
  cbn zeta. intros Ht Hp Hc. unfold score_with_model, load_model_object, column_1.
  rewrite Ht, Hp. cbn. destruct (decide _) as [?|_]; [lia | done].
Qed.

Lemma X12_probabilities_without_a_second_column_raise_witness :
  outcome (score_with_model Toy.K_one_class Toy.scoring_run)
  = Raise (IndexError [VStr "index 1 is out of bounds for axis 1"; VNat 1]) /\
  logs "Probabilities: %s" (trace (score_with_model Toy.K_one_class Toy.scoring_run)) = [].
Proof.
  destruct (X12_probabilities_without_a_second_column_raise
              Toy.K_one_class Toy.scoring_run (Pickled "BEST")) as (H1 & _ & _ & H4).
  - reflexivity.
  - vm_compute. reflexivity.
  - vm_compute. lia.
  - split; [exact H1 | exact H4].
Defined.


(** ** The entry points *)

Lemma no_entry_events_app t1 t2 :
  no_entry_events t1 -> no_entry_events t2 -> no_entry_events (t1 ++ t2).
Proof.
  intros (H1 & H2 & H3) (H1' & H2' & H3'). unfold no_entry_events.
  by rewrite !logs_app, calls_app, H1, H2, H3, H1', H2', H3'.
Qed.

Lemma no_entry_events_only fmts fns t :
  only_events fmts fns t ->
  existsb (String.eqb "START PIPELINE") fmts = false ->
  existsb (String.eqb "END PIPELINE") fmts = false ->
  existsb (String.eqb "get_model_config") fns = false ->
  no_entry_events t.
Proof.
  intros Hev H1 H2 H3. unfold no_entry_events.
  by rewrite (only_events_logs _ _ _ _ Hev H1), (only_events_logs _ _ _ _ Hev H2),
       (only_events_calls _ _ _ _ Hev H3).
Qed.

Lemma main_data_pipeline_no_entry_events K model :
  no_entry_events (trace (Main.data_pipeline K model)).
Proof. unfold no_entry_events, Main.data_pipeline. enter_data_pipeline K model; done. Qed.

Lemma alpha_data_pipeline_no_entry_events K model :
  no_entry_events (trace (Alpha.data_pipeline K model)).
Proof. unfold no_entry_events, Alpha.data_pipeline. enter_data_pipeline K model; done. Qed.

Lemma score_with_model_no_entry_events K model :
  no_entry_events (trace (score_with_model K model)).
Proof.
  unfold no_entry_events, score_with_model, load_model_object, column_1.
  destruct (persisted K !! _); [| done].
  destruct (Specs.model_type (Model.specs model)); cbn; [| done].
  by destruct (decide _).
Qed.

Lemma two_parts_no_entry_events K sel s m0 run :
  in_two_parts K sel s m0 run -> no_entry_events (trace run).
Proof.
  intros (before & Hev & -> & _). apply no_entry_events_app.
  - by apply (no_entry_events_only _ _ _ Hev).
  - by apply (no_entry_events_only _ _ _ (rest_events K sel s m0)).
Qed.

Lemma main_of_parts K (flag : bool) (data training : Model.t -> M Model.t) model :
  no_entry_events (trace (data model)) ->
  (forall m, no_entry_events (trace (training m))) ->
  no_entry_events
    (trace (model <- data model ;;
            model <- (if flag then score_with_model K model ;; ret model else training model) ;;
            ret model)).
Proof.
  intros Hd Ht. destruct (outcome (data model)) as [m1|e] eqn:Hout.
  - destruct (bind_ok (data model)
                (fun model => model <- (if flag then score_with_model K model ;; ret model
                                        else training model) ;; ret model) m1 Hout) as [-> _].
    rewrite bind_ret_id. apply no_entry_events_app; [done |].
    destruct flag; [| apply Ht].
    destruct (bind_ret (score_with_model K m1) m1) as [-> _].
    apply score_with_model_no_entry_events.
  - by destruct (bind_raise (data model)
                   (fun model => model <- (if flag then score_with_model K model ;; ret model
                                           else training model) ;; ret model) e Hout) as [-> _].
Qed.

Lemma main_pipeline_no_entry_events K model :
  no_entry_events (trace (Main.main_pipeline K model)).
Proof.
  apply (main_of_parts K _ (Main.data_pipeline K) (Main.model_pipeline K)).
  - apply main_data_pipeline_no_entry_events.
  - intros m. apply (two_parts_no_entry_events K _ _ _ _ (main_in_two_parts K m)).
Qed.

Lemma alpha_main_pipeline_no_entry_events K model :
  no_entry_events (trace (Alpha.main_pipeline K model)).
Proof.
  apply (main_of_parts K _ (Alpha.data_pipeline K) (Alpha.model_pipeline K)).
  - apply alpha_data_pipeline_no_entry_events.
  - intros m. apply (two_parts_no_entry_events K _ _ _ _ (alpha_in_two_parts K m)).
Qed.


#[local] Arguments py_repeat : simpl never.
#[local] Arguments log_format : simpl never.
#[local] Arguments date_format : simpl never.
#[local] Arguments Main.main_pipeline : simpl never.
#[local] Arguments Alpha.main_pipeline : simpl never.

(** An explicit beginning of a trace, cut from what follows it. *)
Ltac cut_list l :=
  lazymatch l with
  | ?x :: ?l' =>
      let r := cut_list l' in
      lazymatch r with (?p, ?tl) => constr:((x :: p, tl)) end
  | _ => constr:((@nil event, l))
  end.

Ltac cut_trace :=
  repeat match goal with
         | |- context [logs _ (?x :: ?l)] =>
             let r := cut_list (x :: l) in
             lazymatch r with (?p, ?tl) => change (x :: l) with (p ++ tl) end
         | |- context [calls _ (?x :: ?l)] =>
             let r := cut_list (x :: l) in
             lazymatch r with (?p, ?tl) => change (x :: l) with (p ++ tl) end
         end;
  rewrite ?logs_app, ?calls_app.

(** X13: in both entry points the start banner is logged once and the
    configuration is read once, from the directory the command line
    names; the end banner is logged when the main pipeline returns and
    only then, so a fatal error leaves the log without it; and the entry
    point raises what the main pipeline raises. *)
Theorem X13_the_end_banner_is_logged_only_when_the_pipeline_returns
    (K : Collaborators) (S : Startup) :
  let cfg_dir := Args.cfg_dir (parse_args S) in
  entry_contract cfg_dir
    (Main.main_pipeline K
       (make_model S (set_scoring (Args.scoring (parse_args S)) (get_model_config S cfg_dir))))
    (main K S) /\
  entry_contract cfg_dir
    (Alpha.main_pipeline K (make_model S (get_model_config S cfg_dir)))
    (alpha_main K S).
Proof.
  cbn zeta. split.
  - pose proof (main_pipeline_no_entry_events K
                  (make_model S (set_scoring (Args.scoring (parse_args S))
                                   (get_model_config S (Args.cfg_dir (parse_args S))))))
      as (H1 & H2 & H3).
    unfold entry_contract, main, logging_setup. cbn.
    destruct (Main.main_pipeline K _) as [t [m|e]]; cbn in *; cut_trace;
      rewrite ?H1, ?H2, ?H3; done.
  - pose proof (alpha_main_pipeline_no_entry_events K
                  (make_model S (get_model_config S (Args.cfg_dir (parse_args S)))))
      as (H1 & H2 & H3).
    unfold entry_contract, alpha_main, logging_setup. cbn.
    destruct (Alpha.main_pipeline K _) as [t [m|e]]; cbn in *; cut_trace;
      rewrite ?H1, ?H2, ?H3; done.
Qed.

(** X14: in [__main__.py] the command line decides between scoring and
    training, whatever the configuration file says for the key
    ['scoring']: when the constructor of the model keeps the configuration
    it is given and the data pipeline returns (the column counts agree),
    [main] runs the scoring path and not the model pipeline when the
    namespace of the command line has [scoring] set, and the model
    pipeline and not the scoring path when it has not. *)
Theorem X14_the_command_line_decides_between_scoring_and_training
    (K : Collaborators) (S : Startup) :
  let flag := Args.scoring (parse_args S) in
  let model := make_model S (set_scoring flag
                               (get_model_config S (Args.cfg_dir (parse_args S)))) in
  (forall s, Model.specs (make_model S s) = s) ->
  (shape (dropped_train K model)).2 = (shape (dropped_test K model)).2 ->
  logs "SCORING" (trace (main K S)) = (if flag then [[]] else []) /\
  logs "MODEL PIPELINE" (trace (main K S)) = (if flag then [] else [[]]).
Proof.
  cbn zeta. intros Hkeep E.
  destruct (main_data_pipeline_returns K _ E) as [m1 Hout].
  destruct (main_pipeline_branch K _ m1 Hout) as [(_ & _ & _ & Hs & Hm) _].
  rewrite Hkeep in Hs, Hm. cbn [set_scoring Specs.scoring] in Hs, Hm.
  unfold main, logging_setup. cbn.
  destruct (Main.main_pipeline K _) as [t [m|e]]; cbn in *; cut_trace;
    rewrite ?Hs, ?Hm; by destruct (Args.scoring (parse_args S)).
Qed.

Lemma X14_the_command_line_decides_between_scoring_and_training_witness :
  logs "SCORING" (trace (main Toy.K ToyEntry.score_on_the_command_line)) = [[]] /\
  logs "MODEL PIPELINE" (trace (main Toy.K ToyEntry.score_on_the_command_line)) = [].
Proof.
  assert ((shape (dropped_train Toy.K
                    (make_model ToyEntry.score_on_the_command_line
                       (set_scoring true (get_model_config ToyEntry.score_on_the_command_line
                                            "./config"))))).2
          = (shape (dropped_test Toy.K
                    (make_model ToyEntry.score_on_the_command_line
                       (set_scoring true (get_model_config ToyEntry.score_on_the_command_line
                                            "./config"))))).2) as E
    by (vm_compute; reflexivity).
  exact (X14_the_command_line_decides_between_scoring_and_training
           Toy.K ToyEntry.score_on_the_command_line (fun s => eq_refl) E).
Defined.
